(** * Conflict detection and slot suggestion of the meeting tool

    A shallow embedding of [apps/meetings/services.py] (the classes
    [ConflictDetector] and [SlotSuggester] and the function
    [check_meeting_conflicts]) together with the parts of the Django models
    and of Python's [datetime] that this code reads, followed by the
    properties of the scheduling core. *)

From Stdlib Require Import ZArith List String Ascii Bool Lia.
Import ListNotations.

#[local] Open Scope Z_scope.
#[local] Open Scope bool_scope.

(* ================================================================= *)
(** ** Python's [datetime] module, as far as the services use it *)

(** Durations, times of day and wall clocks are counted in microseconds,
    the resolution of Python's [timedelta].  A [date] is the proleptic
    Gregorian ordinal ([date.toordinal()]); the year range 1..9999 of
    Python's dates is not modelled, ordinals are unbounded. *)
Module Py.

Definition timedelta := Z.
Definition time := Z.
Definition date := Z.

Definition us_per_second : Z := 1000000.
Definition us_per_minute : Z := 60 * us_per_second.
Definition us_per_hour : Z := 60 * us_per_minute.
Definition us_per_day : Z := 24 * us_per_hour.

Definition minutes (n : Z) : timedelta := n * us_per_minute.
Definition hours (n : Z) : timedelta := n * us_per_hour.
Definition days (n : Z) : timedelta := n * us_per_day.

(** [time(h, m)]: seconds and microseconds are zero. *)
Definition mk_time (h m : Z) : time := h * us_per_hour + m * us_per_minute.

(** [time(h, m, s, us)]. *)
Definition mk_time_full (h m s us : Z) : time :=
  h * us_per_hour + m * us_per_minute + s * us_per_second + us.

Definition time_hour (t : time) : Z := t / us_per_hour.
Definition time_minute (t : time) : Z := (t / us_per_minute) mod 60.
(** seconds and microseconds together, below the minute *)
Definition time_below_minute (t : time) : Z := t mod us_per_minute.

(** [date.weekday()]: Monday is 0, Sunday is 6.  Ordinal 1 is Monday
    0001-01-01. *)
Definition date_weekday (d : date) : Z := (d + 6) mod 7.

Definition is_leap (y : Z) : bool :=
  ((y mod 4 =? 0) && negb (y mod 100 =? 0)) || (y mod 400 =? 0).

Definition days_before_year (y : Z) : Z :=
  let y1 := y - 1 in y1 * 365 + y1 / 4 - y1 / 100 + y1 / 400.

Definition days_in_month (y m : Z) : Z :=
  if m =? 2 then (if is_leap y then 29 else 28)
  else if (m =? 4) || (m =? 6) || (m =? 9) || (m =? 11) then 30 else 31.

Definition days_before_month (y m : Z) : Z :=
  fold_left (fun acc k => acc + days_in_month y (Z.of_nat k))
            (seq 1 (Z.to_nat (m - 1))) 0.

(** [date(y, m, d)] as its ordinal. *)
Definition mk_date (y m d : Z) : date :=
  days_before_year y + days_before_month y m + d.

(** A naive [datetime]: a wall clock without zone. *)
Definition naive := Z.

(** [datetime.combine(date, time)]. *)
Definition combine (d : date) (t : time) : naive := d * us_per_day + t.

(** A [tzinfo] of pytz: its name ([str(tz)]), the offset it gives to a
    UTC instant (used by [astimezone]) and the offset [localize] picks
    for a wall clock.  Offsets are in microseconds. *)
Record tzinfo := {
  zone : string;
  utcoffset_at : Z -> Z;
  localize_offset : naive -> Z
}.

(** An aware [datetime]: the wall-clock fields and the UTC offset of the
    attached [tzinfo].  pytz attaches a fixed-offset [tzinfo], so
    arithmetic and [replace] act on the wall clock and keep the offset. *)
Record datetime := { wall : naive; utcoffset : Z }.

Definition utc (x : datetime) : Z := wall x - utcoffset x.

(** Aware datetimes compare by their UTC instants. *)
Definition ltb (a b : datetime) : bool := utc a <? utc b.
Definition leb (a b : datetime) : bool := utc a <=? utc b.
Definition gtb (a b : datetime) : bool := utc b <? utc a.

Definition dt_date (x : datetime) : date := wall x / us_per_day.
Definition dt_time (x : datetime) : time := wall x mod us_per_day.
Definition weekday (x : datetime) : Z := date_weekday (dt_date x).
Definition hour (x : datetime) : Z := time_hour (dt_time x).
Definition minute (x : datetime) : Z := time_minute (dt_time x).

(** [x + td]. *)
Definition add (x : datetime) (td : timedelta) : datetime :=
  {| wall := wall x + td; utcoffset := utcoffset x |}.

(** [x.astimezone(tz)]. *)
Definition astimezone (x : datetime) (tz : tzinfo) : datetime :=
  let off := utcoffset_at tz (utc x) in
  {| wall := utc x + off; utcoffset := off |}.

(** [tz.localize(n)]. *)
Definition localize (tz : tzinfo) (n : naive) : datetime :=
  {| wall := n; utcoffset := localize_offset tz n |}.

(** [x.replace(minute=m, second=0, microsecond=0)]. *)
Definition replace_minute_second_microsecond (x : datetime) (m : Z)
  : datetime :=
  {| wall := combine (dt_date x) (mk_time (hour x) m);
     utcoffset := utcoffset x |}.

(** [x.replace(hour=h, minute=m)]: seconds and microseconds stay. *)
Definition replace_hour_minute (x : datetime) (h m : Z) : datetime :=
  {| wall := combine (dt_date x)
                     (mk_time h m + time_below_minute (dt_time x));
     utcoffset := utcoffset x |}.

(** [x.strftime('%H:%M')]. *)
Definition digit (n : Z) : string :=
  String (ascii_of_nat (48 + Z.to_nat n)) EmptyString.
Definition two_digits (n : Z) : string :=
  (digit (n / 10) ++ digit (n mod 10))%string.
Definition strftime_HM (x : datetime) : string :=
  (two_digits (hour x) ++ ":" ++ two_digits (minute x))%string.

(** [l[:n]]: a negative [n] counts from the end. *)
Definition slice_to {A : Type} (l : list A) (n : Z) : list A :=
  if 0 <=? n then firstn (Z.to_nat n) l
  else firstn (List.length l - Z.to_nat (- n)) l.

End Py.

(* ================================================================= *)
(** ** The models read by the services ([apps/users/models.py],
       [apps/meetings/models.py]) *)

(** Primary keys are UUIDs; [str(id)] is their text. *)
Definition uuid := string.

Module User.
Record t := {
  id : uuid;
  full_name : string;
  timezone : string
}.
End User.

Module Meeting.
Inductive Status := scheduled | in_progress | completed | cancelled.

Record t := {
  id : uuid;
  organizer : uuid;
  participants : list uuid;
  start_time : Py.datetime;
  end_time : Py.datetime;
  status : Status;
  is_deleted : bool
}.

(** [status__in=['scheduled', 'in_progress']] *)
Definition status_counts (s : Status) : bool :=
  match s with
  | scheduled | in_progress => true
  | completed | cancelled => false
  end.

(** The properties [is_upcoming], [is_past] and [is_in_progress]; [now]
    is [timezone.now()]. *)
Definition is_upcoming (now : Py.datetime) (m : t) : bool :=
  Py.gtb (start_time m) now.

Definition is_past (now : Py.datetime) (m : t) : bool :=
  Py.ltb (end_time m) now.

Definition is_in_progress (now : Py.datetime) (m : t) : bool :=
  Py.leb (start_time m) now && Py.leb now (end_time m).
End Meeting.

Module Availability.
Record t := {
  user : uuid;
  day_of_week : Z;
  start_time : Py.time;
  end_time : Py.time;
  effective_from : option Py.date;
  effective_until : option Py.date;
  is_active : bool
}.
End Availability.

Module BlockedTime.
Record t := {
  user : uuid;
  start_datetime : Py.datetime;
  end_datetime : Py.datetime
}.
End BlockedTime.

(** What one query of the core reads: the four tables, the current date
    ([timezone.now().date()]) and the zone database behind
    [pytz.timezone]. *)
Record Snapshot := {
  Meeting_objects : list Meeting.t;
  BlockedTime_objects : list BlockedTime.t;
  Availability_objects : list Availability.t;
  User_objects : list User.t;
  today : Py.date;
  pytz_timezone : string -> Py.tzinfo
}.

(** The same snapshot with other availability records and another
    current date, and with another user table. *)
Definition with_availability (db : Snapshot) (avs : list Availability.t)
           (day : Py.date) : Snapshot :=
  {| Meeting_objects := Meeting_objects db;
     BlockedTime_objects := BlockedTime_objects db;
     Availability_objects := avs;
     User_objects := User_objects db;
     today := day;
     pytz_timezone := pytz_timezone db |}.

Definition with_users (db : Snapshot) (us : list User.t) : Snapshot :=
  {| Meeting_objects := Meeting_objects db;
     BlockedTime_objects := BlockedTime_objects db;
     Availability_objects := Availability_objects db;
     User_objects := us;
     today := today db;
     pytz_timezone := pytz_timezone db |}.

(** The exceptions [apps/core/exceptions.py] declares. *)
Inductive core_exception :=
| MeetingConflictError
| AvailabilityError
| NotificationError.

(** How a call of the core ends. *)
Inductive outcome (A : Type) :=
| Returned (a : A)
| Raised (e : core_exception).
Arguments Returned {A} a.
Arguments Raised {A} e.


(** Python's truth value of a list and of a string. *)
Definition truthy_list {A : Type} (l : list A) : bool :=
  match l with [] => false | _ :: _ => true end.

Definition truthy_str (s : string) : bool :=
  match s with EmptyString => false | String _ _ => true end.

(* ================================================================= *)
(** ** [class ConflictDetector] *)

Module ConflictDetector.

Record t := { user : User.t; tz : Py.tzinfo }.

(** The dictionary [get_all_conflicts] returns. *)
Record report := {
  conflicting_meetings : list Meeting.t;
  blocked_times : list BlockedTime.t;
  within_availability : bool;
  has_conflicts : bool
}.

Section Methods.

Variable db : Snapshot.

Definition __init__ (user : User.t) (timezone_str : string) : t :=
  {| user := user; tz := pytz_timezone db timezone_str |}.

(** The queryset of [check_conflicts] before the exclusion: the meetings
    of the user (as organizer or participant) that count and overlap.
    The rows of the table are filtered, so each meeting comes once
    ([distinct()]). *)
Definition overlapping_meetings (self : t) (start_time end_time : Py.datetime)
  : list Meeting.t :=
  filter
    (fun m =>
       (String.eqb (Meeting.organizer m) (User.id (user self))
        || existsb (String.eqb (User.id (user self))) (Meeting.participants m))
       && negb (Meeting.is_deleted m)
       && Meeting.status_counts (Meeting.status m)
       && (Py.ltb (Meeting.start_time m) end_time
           && Py.gtb (Meeting.end_time m) start_time))
    (Meeting_objects db).

Definition check_conflicts (self : t) (start_time end_time : Py.datetime)
           (exclude_meeting_id : option uuid) : list Meeting.t :=
  let conflicts := overlapping_meetings self start_time end_time in
  match exclude_meeting_id with
  | Some i =>
      if truthy_str i
      then filter (fun m => negb (String.eqb (Meeting.id m) i)) conflicts
      else conflicts
  | None => conflicts
  end.

Definition check_blocked_times (self : t) (start_time end_time : Py.datetime)
  : list BlockedTime.t :=
  filter
    (fun b =>
       String.eqb (BlockedTime.user b) (User.id (user self))
       && Py.ltb (BlockedTime.start_datetime b) end_time
       && Py.gtb (BlockedTime.end_datetime b) start_time)
    (BlockedTime_objects db).

(** The queryset [availabilities] of [_is_time_within_availability]. *)
Definition live_availabilities (self : t) (day_of_week : Z)
  : list Availability.t :=
  filter
    (fun a =>
       String.eqb (Availability.user a) (User.id (user self))
       && (Availability.day_of_week a =? day_of_week)
       && Availability.is_active a
       && match Availability.effective_from a with
          | None => true
          | Some from => from <=? today db
          end
       && match Availability.effective_until a with
          | None => true
          | Some until => today db <=? until
          end)
    (Availability_objects db).

Definition default_start : Py.time := Py.mk_time 8 0.
Definition default_end : Py.time := Py.mk_time 18 0.

Definition _is_time_within_availability (self : t) (day_of_week : Z)
           (start_time end_time : Py.time) : bool :=
  let availabilities := live_availabilities self day_of_week in
  if negb (truthy_list availabilities)
  then (default_start <=? start_time) && (end_time <=? default_end)
  else existsb
         (fun avail =>
            (Availability.start_time avail <=? start_time)
            && (end_time <=? Availability.end_time avail))
         availabilities.

Definition _is_day_available (self : t) (date : Py.date)
           (start_dt end_dt : Py.datetime) : bool :=
  let day_of_week := Py.date_weekday date in
  let day_start :=
    if date =? Py.dt_date start_dt then Py.dt_time start_dt
    else Py.mk_time 0 0 in
  let day_end :=
    if date =? Py.dt_date end_dt then Py.dt_time end_dt
    else Py.mk_time 23 59 in
  _is_time_within_availability self day_of_week day_start day_end.

(** The [while current_date <= local_end.date()] loop of
    [check_availability_window]; [fuel] bounds its iterations. *)
Fixpoint days_loop (fuel : nat) (self : t) (current_date : Py.date)
         (local_start local_end : Py.datetime) : bool :=
  match fuel with
  | O => true
  | S fuel' =>
      if current_date <=? Py.dt_date local_end then
        if negb (_is_day_available self current_date local_start local_end)
        then false
        else days_loop fuel' self (current_date + 1) local_start local_end
      else true
  end.

Definition check_availability_window (self : t)
           (start_time end_time : Py.datetime) : bool :=
  let day_of_week := Py.weekday start_time in
  let local_start := Py.astimezone start_time (tz self) in
  let local_end := Py.astimezone end_time (tz self) in
  if negb (Py.dt_date local_start =? Py.dt_date local_end) then
    let current_date := Py.dt_date local_start in
    days_loop (Z.to_nat (Py.dt_date local_end - current_date + 1))
              self current_date local_start local_end
  else
    _is_time_within_availability
      self day_of_week (Py.dt_time local_start) (Py.dt_time local_end).

Definition get_all_conflicts (self : t) (start_time end_time : Py.datetime)
           (exclude_meeting_id : option uuid) : report :=
  {| conflicting_meetings :=
       check_conflicts self start_time end_time exclude_meeting_id;
     blocked_times := check_blocked_times self start_time end_time;
     within_availability :=
       check_availability_window self start_time end_time;
     has_conflicts :=
       truthy_list (check_conflicts self start_time end_time
                                    exclude_meeting_id)
       || truthy_list (check_blocked_times self start_time end_time) |}.

(** [get_all_conflicts] has no [raise]: every call returns its report. *)
Definition get_all_conflicts_outcome (self : t)
           (start_time end_time : Py.datetime)
           (exclude_meeting_id : option uuid) : outcome report :=
  Returned (get_all_conflicts self start_time end_time exclude_meeting_id).

End Methods.

End ConflictDetector.

(* ================================================================= *)
(** ** [class SlotSuggester] *)

Module SlotSuggester.

Record t := {
  users : list User.t;
  duration : Py.timedelta;
  tz : Py.tzinfo;
  business_start : Py.time;
  business_end : Py.time
}.

(** A suggested slot.  [suggest_slots] fills all keys (its [date] is
    rendered by [isoformat()]); the dictionary of
    [find_next_available_slot] has no [date] and no [time_display]. *)
Record slot := {
  start_time : Py.datetime;
  end_time : Py.datetime;
  duration_minutes : Z;
  all_available : bool;
  date : option Py.date;
  time_display : option string
}.

Definition default_num_suggestions : Z := 5.
Definition default_days_to_search : Z := 7.
Definition default_max_days : Z := 14.

Section Methods.

Variable db : Snapshot.

Definition __init__ (users : list User.t) (duration_minutes : Z)
           (timezone_str : string) : t :=
  {| users := users;
     duration := Py.minutes duration_minutes;
     tz := pytz_timezone db timezone_str;
     business_start := Py.mk_time 8 0;
     business_end := Py.mk_time 18 0 |}.

(** [int(self.duration.total_seconds() / 60)] *)
Definition duration_in_minutes (self : t) : Z :=
  Z.quot (duration self) Py.us_per_minute.

(** The dictionary [_get_available_slots_for_day] appends. *)
Definition day_slot (self : t) (date : Py.date)
           (current_time slot_end : Py.datetime) : slot :=
  {| start_time := current_time;
     end_time := slot_end;
     duration_minutes := duration_in_minutes self;
     all_available := true;
     date := Some date;
     time_display :=
       Some (Py.strftime_HM current_time ++ " - "
             ++ Py.strftime_HM slot_end)%string |}.

(** The dictionary [find_next_available_slot] returns. *)
Definition next_slot (self : t) (current_time slot_end : Py.datetime)
  : slot :=
  {| start_time := current_time;
     end_time := slot_end;
     duration_minutes := duration_in_minutes self;
     all_available := true;
     date := None;
     time_display := None |}.

Definition unavailable (self : t) (start_time end_time : Py.datetime)
           (user : User.t) : bool :=
  let detector := ConflictDetector.__init__ db user (Py.zone (tz self)) in
  let conflicts :=
    ConflictDetector.get_all_conflicts db detector start_time end_time None in
  ConflictDetector.has_conflicts conflicts
  || negb (ConflictDetector.within_availability conflicts).

Definition _check_slot_for_all_users (self : t)
           (start_time end_time : Py.datetime) : bool * list User.t :=
  let unavailable_users :=
    filter (unavailable self start_time end_time) (users self) in
  (Nat.eqb (List.length unavailable_users) 0, unavailable_users).

(** The [while current_time + self.duration <= end_time] loop of
    [_get_available_slots_for_day]; [fuel] bounds its iterations. *)
Fixpoint slots_loop (fuel : nat) (self : t) (date : Py.date)
         (current_time end_time : Py.datetime) (slots : list slot)
  : list slot :=
  match fuel with
  | O => slots
  | S fuel' =>
      if Py.leb (Py.add current_time (duration self)) end_time then
        let slot_end := Py.add current_time (duration self) in
        let '(is_available, _) :=
          _check_slot_for_all_users self current_time slot_end in
        let slots :=
          if is_available then
            slots ++ [day_slot self date current_time slot_end]
          else slots in
        slots_loop fuel' self date (Py.add current_time (Py.minutes 30))
                   end_time slots
      else slots
  end.

(** Iterations the loop makes from [current_time]: one per half hour
    that still fits before [end_time]. *)
Definition slots_fuel (self : t) (current_time end_time : Py.datetime)
  : nat :=
  Z.to_nat ((Py.utc end_time - Py.utc current_time - duration self)
            / Py.minutes 30 + 1).

Definition _get_available_slots_for_day (self : t) (date : Py.date)
  : list slot :=
  let current_time :=
    Py.localize (tz self) (Py.combine date (business_start self)) in
  let end_time :=
    Py.localize (tz self) (Py.combine date (business_end self)) in
  slots_loop (slots_fuel self current_time end_time) self date
             current_time end_time [].

(** The [while current_date <= end_date and len(suggestions) <
    num_suggestions] loop of [suggest_slots]. *)
Fixpoint dates_loop (fuel : nat) (self : t) (current_date end_date : Py.date)
         (num_suggestions : Z) (suggestions : list slot) : list slot :=
  match fuel with
  | O => suggestions
  | S fuel' =>
      if (current_date <=? end_date)
         && (Z.of_nat (List.length suggestions) <? num_suggestions) then
        let suggestions :=
          if Py.date_weekday current_date <? 5
          then suggestions ++ _get_available_slots_for_day self current_date
          else suggestions in
        dates_loop fuel' self (current_date + 1) end_date num_suggestions
                   suggestions
      else suggestions
  end.

Definition suggest_slots (self : t) (preferred_date : Py.date)
           (num_suggestions days_to_search : Z) : list slot :=
  let current_date := preferred_date in
  let end_date := preferred_date + days_to_search in
  let suggestions :=
    dates_loop (Z.to_nat (days_to_search + 1)) self current_date end_date
               num_suggestions [] in
  Py.slice_to suggestions num_suggestions.

(** The [while current_time < end_search] loop of
    [find_next_available_slot].  The loop need not end, so the result is
    [None] when [fuel] iterations did not finish it, [Some None] for
    Python's [None] and [Some (Some s)] for a returned slot. *)
Fixpoint search_loop (fuel : nat) (self : t)
         (current_time end_search : Py.datetime) : option (option slot) :=
  match fuel with
  | O => None
  | S fuel' =>
      if Py.ltb current_time end_search then
        let minutes := Py.minute current_time in
        let current_time :=
          if negb (minutes mod 30 =? 0) then
            let rounded :=
              Py.replace_minute_second_microsecond
                current_time (((minutes / 30 + 1) * 30) mod 60) in
            if 30 <=? minutes then Py.add rounded (Py.hours 1) else rounded
          else current_time in
        let local_time := Py.astimezone current_time (tz self) in
        let to_business_start x :=
          Py.replace_hour_minute x (Py.time_hour (business_start self))
                                 (Py.time_minute (business_start self)) in
        (* the second component is true where the source has [continue] *)
        let '(current_time, continue) :=
          if Py.dt_time local_time <? business_start self then
            (to_business_start current_time, false)
          else if business_end self <=? Py.dt_time local_time then
            (to_business_start (Py.add current_time (Py.days 1)), true)
          else (current_time, false) in
        if continue then search_loop fuel' self current_time end_search
        else if 5 <=? Py.weekday current_time then
          let days_until_monday :=
            let d := (7 - Py.weekday current_time) mod 7 in
            if d =? 0 then 7 else d in
          search_loop fuel' self
            (to_business_start (Py.add current_time
                                       (Py.days days_until_monday)))
            end_search
        else
          let slot_end := Py.add current_time (duration self) in
          let '(is_available, _) :=
            _check_slot_for_all_users self current_time slot_end in
          if is_available then
            Some (Some (next_slot self current_time slot_end))
          else
            search_loop fuel' self (Py.add current_time (Py.minutes 30))
                        end_search
      else Some None
  end.

Definition find_next_available_slot (fuel : nat) (self : t)
           (after_time : Py.datetime) (max_days : Z)
  : option (option slot) :=
  search_loop fuel self after_time (Py.add after_time (Py.days max_days)).

End Methods.

End SlotSuggester.

(* ================================================================= *)
(** ** [check_meeting_conflicts] *)

(** The [meeting_data] dictionary; [None] is an absent key. *)
Record meeting_data := {
  md_start_time : Py.datetime;
  md_end_time : option Py.datetime;
  md_duration_minutes : option Z;
  md_exclude_meeting_id : option uuid;
  md_participants : option (list uuid)
}.

(** [d.get(key, default)] *)
Definition get_default {A : Type} (o : option A) (default : A) : A :=
  match o with Some a => a | None => default end.

(** [d[k] = v] on a dictionary kept in insertion order. *)
Definition dict_set {V : Type} (d : list (string * V)) (k : string) (v : V)
  : list (string * V) :=
  if existsb (fun kv => String.eqb (fst kv) k) d
  then map (fun kv => if String.eqb (fst kv) k then (k, v) else kv) d
  else d ++ [(k, v)].

Record participant_entry := {
  pe_user : string;
  pe_conflicts : ConflictDetector.report
}.

Record aggregate_report := {
  organizer_conflicts : ConflictDetector.report;
  participant_conflicts : list (string * participant_entry);
  has_any_conflicts : bool;
  suggested_alternatives : list SlotSuggester.slot
}.

Section Aggregator.

Variable db : Snapshot.

(** [User.objects.get(id=i)]; [None] is [User.DoesNotExist]. *)
Definition User_objects_get (i : uuid) : option User.t :=
  find (fun u => String.eqb (User.id u) i) (User_objects db).

(** [User.objects.filter(id__in=ids)] *)
Definition User_objects_filter_id_in (ids : list uuid) : list User.t :=
  filter (fun u => existsb (String.eqb (User.id u)) ids) (User_objects db).

Definition check_meeting_conflicts (data : meeting_data) (user : User.t)
  : aggregate_report :=
  let start_time := md_start_time data in
  let end_time :=
    match md_end_time data with
    | Some e => e
    | None =>
        Py.add start_time
               (Py.minutes (get_default (md_duration_minutes data) 30))
    end in
  let exclude_id := md_exclude_meeting_id data in
  let organizer_detector :=
    ConflictDetector.__init__ db user (User.timezone user) in
  let organizer_conflicts :=
    ConflictDetector.get_all_conflicts db organizer_detector
                                       start_time end_time exclude_id in
  let participant_ids := get_default (md_participants data) [] in
  let participant_conflicts :=
    fold_left
      (fun acc participant_id =>
         match User_objects_get participant_id with
         | Some participant =>
             let detector :=
               ConflictDetector.__init__ db participant
                                         (User.timezone participant) in
             let conflicts :=
               ConflictDetector.get_all_conflicts db detector start_time
                                                  end_time exclude_id in
             if ConflictDetector.has_conflicts conflicts
             then dict_set acc (User.id participant)
                           {| pe_user := User.full_name participant;
                              pe_conflicts := conflicts |}
             else acc
         | None => acc
         end)
      participant_ids [] in
  let suggestions :=
    if ConflictDetector.has_conflicts organizer_conflicts
       || truthy_list participant_conflicts
    then
      let all_users := [user] ++ User_objects_filter_id_in participant_ids in
      let suggester :=
        SlotSuggester.__init__
          db all_users (get_default (md_duration_minutes data) 30)
          (User.timezone user) in
      SlotSuggester.suggest_slots db suggester (Py.dt_date start_time)
                                  SlotSuggester.default_num_suggestions
                                  SlotSuggester.default_days_to_search
    else [] in
  {| organizer_conflicts := organizer_conflicts;
     participant_conflicts := participant_conflicts;
     has_any_conflicts :=
       ConflictDetector.has_conflicts organizer_conflicts
       || truthy_list participant_conflicts;
     suggested_alternatives := suggestions |}.

End Aggregator.

(* ================================================================= *)
(** ** The serializers in front of the core
       ([apps/meetings/serializers.py]) *)

Module Serializers.

Inductive LocationType := physical | virtual | hybrid.

(** The validated attributes the [validate] methods read; [None] is an
    absent key. *)
Record attrs := {
  start_time : option Py.datetime;
  end_time : option Py.datetime;
  duration_minutes : option Z;
  location_type : option LocationType;
  physical_address : option string;
  virtual_link : option string;
  virtual_platform : option string;
  participant_ids : option (list uuid);
  check_conflicts : option bool;
  force_create : option bool
}.

(** What a [validate] raises: a [ValidationError] on one field, the
    [ValidationError] that carries the conflicts, or a [KeyError]. *)
Inductive error :=
| ValidationError (field message : string)
| ConflictsError (organizer : ConflictDetector.report)
                 (participants : list (string * participant_entry))
                 (suggestions : list SlotSuggester.slot)
| KeyError (key : string).

Inductive result (A : Type) :=
| Ok (a : A)
| Raise (e : error).
Arguments Ok {A} a.
Arguments Raise {A} e.

(** [not attrs.get(key)] for a text value. *)
Definition missing (o : option string) : bool :=
  match o with Some v => negb (truthy_str v) | None => true end.

(** [attrs['end_time'] = e] *)
Definition set_end_time (a : attrs) (e : Py.datetime) : attrs :=
  {| start_time := start_time a;
     end_time := Some e;
     duration_minutes := duration_minutes a;
     location_type := location_type a;
     physical_address := physical_address a;
     virtual_link := virtual_link a;
     virtual_platform := virtual_platform a;
     participant_ids := participant_ids a;
     check_conflicts := check_conflicts a;
     force_create := force_create a |}.

(** [attrs.pop('check_conflicts', ..)] and [attrs.pop('force_create', ..)] *)
Definition pop_flags (a : attrs) : attrs :=
  {| start_time := start_time a;
     end_time := end_time a;
     duration_minutes := duration_minutes a;
     location_type := location_type a;
     physical_address := physical_address a;
     virtual_link := virtual_link a;
     virtual_platform := virtual_platform a;
     participant_ids := participant_ids a;
     check_conflicts := None;
     force_create := None |}.

(** The location checks at the end of [MeetingSerializer.validate]. *)
Definition validate_location (a : attrs) : result attrs :=
  let location_type := get_default (location_type a) virtual in
  if match location_type with physical | hybrid => true | virtual => false end
     && missing (physical_address a)
  then Raise (ValidationError
                "physical_address"
                "Physical address is required for physical/hybrid meetings.")
  else
    if match location_type with virtual | hybrid => true | physical => false
       end
       && (missing (virtual_link a) && missing (virtual_platform a))
    then Raise (ValidationError
                  "virtual_link"
                  "Virtual meeting link or platform is required for virtual/hybrid meetings.")
    else Ok a.

(** [MeetingSerializer.validate]; [has_instance] tells whether
    [self.instance] is set (an update) and [now] is [timezone.now()]. *)
Definition MeetingSerializer_validate (has_instance : bool)
           (now : Py.datetime) (a : attrs) : result attrs :=
  let duration := get_default (duration_minutes a) 30 in
  if match start_time a with
     | Some start_time => negb has_instance && Py.leb start_time now
     | None => false
     end
  then Raise (ValidationError "start_time"
                              "Meeting start time must be in the future.")
  else
    match start_time a, end_time a with
    | Some start_time, None =>
        validate_location
          (set_end_time a (Py.add start_time (Py.minutes duration)))
    | Some start_time, Some end_time =>
        if Py.leb end_time start_time
        then Raise (ValidationError "end_time"
                                    "End time must be after start time.")
        else validate_location a
    | None, _ => validate_location a
    end.

Section Create.

Variable db : Snapshot.

(** The [conflict_data] dictionary of [MeetingCreateSerializer.validate]. *)
Definition conflict_data (a : attrs) (start_time end_time : Py.datetime)
  : meeting_data :=
  {| md_start_time := start_time;
     md_end_time := Some end_time;
     md_duration_minutes := Some (get_default (duration_minutes a) 30);
     md_exclude_meeting_id := None;
     md_participants := Some (get_default (participant_ids a) []) |}.

(** [MeetingCreateSerializer.validate]; [user] is the user of the
    request. *)
Definition MeetingCreateSerializer_validate (user : User.t)
           (has_instance : bool) (now : Py.datetime) (a : attrs)
  : result attrs :=
  match MeetingSerializer_validate has_instance now a with
  | Raise e => Raise e
  | Ok a =>
      let check := get_default (check_conflicts a) true in
      let force := get_default (force_create a) false in
      let a := pop_flags a in
      if check && negb force then
        match start_time a with
        | None => Raise (KeyError "start_time")
        | Some start_time =>
            match end_time a with
            | None => Raise (KeyError "end_time")
            | Some end_time =>
                let conflicts :=
                  check_meeting_conflicts
                    db (conflict_data a start_time end_time) user in
                if has_any_conflicts conflicts
                then Raise (ConflictsError
                              (organizer_conflicts conflicts)
                              (participant_conflicts conflicts)
                              (Py.slice_to (suggested_alternatives conflicts)
                                           3))
                else Ok a
            end
        end
      else Ok a
  end.

End Create.

(** [BlockedTimeSerializer.validate] on the two instants of the block. *)
Definition BlockedTimeSerializer_validate
           (start_datetime end_datetime : Py.datetime)
  : result (Py.datetime * Py.datetime) :=
  if Py.leb end_datetime start_datetime
  then Raise (ValidationError "end_datetime"
                              "End time must be after start time.")
  else Ok (start_datetime, end_datetime).

End Serializers.

(* ================================================================= *)
(** ** The message of an error response ([apps/core/exceptions.py]) *)

Module Exceptions.

(** The data of an error response: a text, a list, a dictionary with
    text keys in insertion order, or anything else. *)
#[local] Unset Elimination Schemes.
Inductive value :=
| Text (s : string)
| List (items : list value)
| Dict (items : list (string * value))
| Other.
#[local] Set Elimination Schemes.

Section Message.

(** [str(x)]; the code applies it to the detail and to the first item of
    a list. *)
Variable str : value -> string.

(** [data[key]], [None] when [key not in data]. *)
Fixpoint lookup (key : string) (items : list (string * value))
  : option value :=
  match items with
  | [] => None
  | (k, v) :: rest => if String.eqb k key then Some v else lookup key rest
  end.

(** The [for key, value in data.items()] loop: the message of the first
    field that holds a non-empty list or a text. *)
Fixpoint first_field_message (items : list (string * value))
  : option string :=
  match items with
  | [] => None
  | (key, value) :: rest =>
      match value with
      | List (first :: _) => Some (key ++ ": " ++ str first)%string
      | Text s => Some (key ++ ": " ++ s)%string
      | _ => first_field_message rest
      end
  end.

Definition get_error_message (data : value) : string :=
  match data with
  | Dict items =>
      match lookup "detail" items with
      | Some detail => str detail
      | None =>
          match first_field_message items with
          | Some message => message
          | None => "An error occurred"
          end
      end
  | List (first :: _) => str first
  | _ => "An error occurred"
  end.

(** What one field contributes: the first item of its list, or its
    text. *)
Definition field_message (v : value) : option string :=
  match v with
  | List (first :: _) => Some (str first)
  | Text s => Some s
  | _ => None
  end.

End Message.

End Exceptions.

(* ================================================================= *)
(** ** Concrete data for the examples *)

Module Scenario.

#[local] Open Scope string_scope.

Definition fixed_zone (name : string) (offset : Z) : Py.tzinfo :=
  {| Py.zone := name;
     Py.utcoffset_at := fun _ => offset;
     Py.localize_offset := fun _ => offset |}.

Definition nairobi : Py.tzinfo := fixed_zone "Africa/Nairobi" (Py.hours 3).
Definition utc_zone : Py.tzinfo := fixed_zone "UTC" 0.

Definition lima : Py.tzinfo := fixed_zone "America/Lima" (Py.hours (-5)).

(** The zones the examples name; the examples name no other. *)
Definition zones (name : string) : Py.tzinfo :=
  if String.eqb name "Africa/Nairobi" then nairobi
  else if String.eqb name "America/Lima" then lima
  else utc_zone.

(** [datetime(y, mo, d, h, mi, s)] with the zone's offset attached. *)
Definition at_zone (z : Py.tzinfo) (y mo d h mi s : Z) : Py.datetime :=
  Py.localize z (Py.combine (Py.mk_date y mo d) (Py.mk_time_full h mi s 0)).

Definition alice : User.t :=
  {| User.id := "a1"; User.full_name := "Alice";
     User.timezone := "Africa/Nairobi" |}.

Definition alice_in_utc : User.t :=
  {| User.id := "a1"; User.full_name := "Alice"; User.timezone := "UTC" |}.

Definition bob : User.t :=
  {| User.id := "b2"; User.full_name := "Bob";
     User.timezone := "Africa/Nairobi" |}.

(** Alice's meeting on Monday 2024-06-03, 10:00 to 10:30 in Nairobi. *)
Definition standup : Meeting.t :=
  {| Meeting.id := "m1";
     Meeting.organizer := "a1";
     Meeting.participants := [];
     Meeting.start_time := at_zone nairobi 2024 6 3 10 0 0;
     Meeting.end_time := at_zone nairobi 2024 6 3 10 30 0;
     Meeting.status := Meeting.scheduled;
     Meeting.is_deleted := false |}.

(** Bob's leave on the same morning, 09:00 to 10:00. *)
Definition leave : BlockedTime.t :=
  {| BlockedTime.user := "b2";
     BlockedTime.start_datetime := at_zone nairobi 2024 6 3 9 0 0;
     BlockedTime.end_datetime := at_zone nairobi 2024 6 3 10 0 0 |}.

(** Alice is available in the small hours of Mondays. *)
Definition monday_night : Availability.t :=
  {| Availability.user := "a1";
     Availability.day_of_week := 0;
     Availability.start_time := Py.mk_time 0 0;
     Availability.end_time := Py.mk_time 6 0;
     Availability.effective_from := None;
     Availability.effective_until := None;
     Availability.is_active := true |}.

(** A switched-off record of Alice for Mondays, 09:00 to 12:00. *)
Definition old_monday_morning : Availability.t :=
  {| Availability.user := "a1";
     Availability.day_of_week := 0;
     Availability.start_time := Py.mk_time 9 0;
     Availability.end_time := Py.mk_time 12 0;
     Availability.effective_from := None;
     Availability.effective_until := None;
     Availability.is_active := false |}.

Definition office : Snapshot :=
  {| Meeting_objects := [standup];
     BlockedTime_objects := [leave];
     Availability_objects := [];
     User_objects := [alice; bob];
     today := Py.mk_date 2024 6 1;
     pytz_timezone := zones |}.

Definition office_with_night_shift : Snapshot :=
  {| Meeting_objects := [standup];
     BlockedTime_objects := [leave];
     Availability_objects := [monday_night];
     User_objects := [alice; bob];
     today := Py.mk_date 2024 6 1;
     pytz_timezone := zones |}.

Definition office_with_old_records : Snapshot :=
  {| Meeting_objects := [standup];
     BlockedTime_objects := [leave];
     Availability_objects := [old_monday_morning];
     User_objects := [alice; bob];
     today := Py.mk_date 2024 6 1;
     pytz_timezone := zones |}.

Definition alice_detector : ConflictDetector.t :=
  ConflictDetector.__init__ office alice "Africa/Nairobi".

Definition night_detector : ConflictDetector.t :=
  ConflictDetector.__init__ office_with_night_shift alice "Africa/Nairobi".

(** [str] on texts; the examples apply it to nothing else. *)
Definition text_of (v : Exceptions.value) : string :=
  match v with Exceptions.Text s => s | _ => "" end.

(** The suggester for Alice and Bob, half an hour, in Nairobi. *)
Definition pair_suggester : SlotSuggester.t :=
  SlotSuggester.__init__ office [alice; bob] 30 "Africa/Nairobi".

(** A request of Alice for Monday 2024-06-03 at [h]:[mi] with Bob and
    with an id that names no user. *)
Definition request (h mi : Z) : meeting_data :=
  {| md_start_time := at_zone nairobi 2024 6 3 h mi 0;
     md_end_time := None;
     md_duration_minutes := None;
     md_exclude_meeting_id := None;
     md_participants := Some ["b2"; "nobody"] |}.

(** The attributes of the same request as the serializer sees them. *)
Definition posted (h mi : Z) : Serializers.attrs :=
  {| Serializers.start_time := Some (at_zone nairobi 2024 6 3 h mi 0);
     Serializers.end_time := None;
     Serializers.duration_minutes := None;
     Serializers.location_type := None;
     Serializers.physical_address := None;
     Serializers.virtual_link := Some "https://meet.example/room";
     Serializers.virtual_platform := None;
     Serializers.participant_ids := Some ["b2"; "nobody"];
     Serializers.check_conflicts := None;
     Serializers.force_create := None |}.

Definition saturday_noon : Py.datetime := at_zone nairobi 2024 6 1 12 0 0.

End Scenario.

(* ================================================================= *)
(** ** The vocabulary of the properties *)

(** The strict overlap test of the two queries. *)
Definition overlaps (a_start a_end b_start b_end : Py.datetime) : Prop :=
  Py.utc a_start < Py.utc b_end /\ Py.utc b_start < Py.utc a_end.

(** Two windows touch when one ends at the instant the other starts. *)
Definition touches (a_start a_end b_start b_end : Py.datetime) : Prop :=
  Py.utc a_end = Py.utc b_start \/ Py.utc b_end = Py.utc a_start.

(** A window is malformed when its end is not after its start. *)
Definition malformed (start_time end_time : Py.datetime) : Prop :=
  Py.utc end_time <= Py.utc start_time.

(** Failing fast on a malformed window: the call raises instead of
    returning a report. *)
Definition fails_fast (db : Snapshot) (self : ConflictDetector.t)
           (start_time end_time : Py.datetime)
           (exclude_meeting_id : option uuid) : Prop :=
  malformed start_time end_time ->
  exists e, ConflictDetector.get_all_conflicts_outcome
              db self start_time end_time exclude_meeting_id = Raised e.

(** The aggregator returning at most [n] alternatives when it finds a
    conflict. *)
Definition alternatives_at_most (n : nat) (db : Snapshot)
           (data : meeting_data) (user : User.t) : Prop :=
  has_any_conflicts (check_meeting_conflicts db data user) = true ->
  (List.length (suggested_alternatives (check_meeting_conflicts db data user))
   <= n)%nat.

(** A slot is free for a person when the report of [get_all_conflicts]
    shows no conflict (whatever zone the detector is built with) and, from
    the detector the suggester builds for that person, lies within the
    availability. *)
Definition free_for (db : Snapshot) (self : SlotSuggester.t)
           (s : SlotSuggester.slot) (u : User.t) : Prop :=
  (forall timezone_str : string,
      ConflictDetector.has_conflicts
        (ConflictDetector.get_all_conflicts
           db (ConflictDetector.__init__ db u timezone_str)
           (SlotSuggester.start_time s) (SlotSuggester.end_time s) None)
      = false)
  /\ ConflictDetector.within_availability
       (ConflictDetector.get_all_conflicts
          db (ConflictDetector.__init__ db u (Py.zone (SlotSuggester.tz self)))
          (SlotSuggester.start_time s) (SlotSuggester.end_time s) None)
     = true.

Definition free_for_all (db : Snapshot) (self : SlotSuggester.t)
           (s : SlotSuggester.slot) : Prop :=
  forall u, In u (SlotSuggester.users self) -> free_for db self s u.

(** Two user records that differ at most in the stored timezone. *)
Definition differ_only_in_timezone (u1 u2 : User.t) : Prop :=
  User.id u1 = User.id u2 /\ User.full_name u1 = User.full_name u2.

(** The same suggester for another list of user records. *)
Definition with_people (self : SlotSuggester.t) (us : list User.t)
  : SlotSuggester.t :=
  {| SlotSuggester.users := us;
     SlotSuggester.duration := SlotSuggester.duration self;
     SlotSuggester.tz := SlotSuggester.tz self;
     SlotSuggester.business_start := SlotSuggester.business_start self;
     SlotSuggester.business_end := SlotSuggester.business_end self |}.

(** The candidate start [k] half hours after [x]. *)
Definition half_hours_after (x : Py.datetime) (k : nat) : Py.datetime :=
  Py.add x (Py.minutes (30 * Z.of_nat k)).

(** A datetime on a 30-minute boundary: its minute is 0 or 30 and its
    seconds and microseconds are zero. *)
Definition on_half_hour (x : Py.datetime) : Prop :=
  Py.dt_time x mod Py.minutes 30 = 0.

(** The person takes part in the meeting, as organizer or participant. *)
Definition involves (u : User.t) (m : Meeting.t) : Prop :=
  Meeting.organizer m = User.id u \/ In (User.id u) (Meeting.participants m).

(** The meeting counts for conflicts: not soft-deleted, and scheduled or
    in progress. *)
Definition live (m : Meeting.t) : Prop :=
  Meeting.is_deleted m = false
  /\ (Meeting.status m = Meeting.scheduled
      \/ Meeting.status m = Meeting.in_progress).

(** The meeting is not the one [exclude_meeting_id] names. *)
Definition not_excluded (exclude_meeting_id : option uuid) (m : Meeting.t)
  : Prop :=
  match exclude_meeting_id with
  | Some i => i = EmptyString \/ Meeting.id m <> i
  | None => True
  end.

(** A time range lies inside an availability window. *)
Definition contained_in (start_time end_time : Py.time) (a : Availability.t)
  : Prop :=
  Availability.start_time a <= start_time
  /\ end_time <= Availability.end_time a.

(** The availability record is switched off, or the current date is
    outside its effective range. *)
Definition dormant (db : Snapshot) (a : Availability.t) : Prop :=
  Availability.is_active a = false
  \/ (exists from, Availability.effective_from a = Some from
                   /\ today db < from)
  \/ (exists until, Availability.effective_until a = Some until
                    /\ until < today db).

(** The candidate of a day at position [k] of the half-hour grid that
    starts at [first], and whether every user passes the check on it. *)
Definition grid_slot (self : SlotSuggester.t) (day : Py.date)
           (first : Py.datetime) (k : nat) : SlotSuggester.slot :=
  SlotSuggester.day_slot
    self day (half_hours_after first k)
    (Py.add (half_hours_after first k) (SlotSuggester.duration self)).

Definition grid_free (db : Snapshot) (self : SlotSuggester.t)
           (first : Py.datetime) (k : nat) : bool :=
  fst (SlotSuggester._check_slot_for_all_users
         db self (half_hours_after first k)
         (Py.add (half_hours_after first k) (SlotSuggester.duration self))).

(** The first candidate of a day, the end of its business hours, and the
    number of grid positions that fit between them. *)
Definition day_first (self : SlotSuggester.t) (day : Py.date) : Py.datetime :=
  Py.localize (SlotSuggester.tz self)
              (Py.combine day (SlotSuggester.business_start self)).

Definition day_last (self : SlotSuggester.t) (day : Py.date) : Py.datetime :=
  Py.localize (SlotSuggester.tz self)
              (Py.combine day (SlotSuggester.business_end self)).

Definition day_positions (self : SlotSuggester.t) (day : Py.date) : nat :=
  SlotSuggester.slots_fuel self (day_first self day) (day_last self day).

(** The dates [suggest_slots] scans, in order, and those of them that
    are not on a weekend. *)
Definition scanned_dates (preferred_date : Py.date) (days_to_search : Z)
  : list Py.date :=
  map (fun i => preferred_date + Z.of_nat i)
      (seq 0 (Z.to_nat (days_to_search + 1))).

Definition scanned_weekdays (preferred_date : Py.date) (days_to_search : Z)
  : list Py.date :=
  filter (fun d => Py.date_weekday d <? 5)
         (scanned_dates preferred_date days_to_search).

(** The zone gives one offset to the start and to the end of the
    business hours of every date. *)
Definition steady_through_business_hours (z : Py.tzinfo) : Prop :=
  forall d : Py.date,
    Py.localize_offset z (Py.combine d (Py.mk_time 8 0))
    = Py.localize_offset z (Py.combine d (Py.mk_time 18 0)).

(** The participant id names a user of the table. *)
Definition known (db : Snapshot) (participant_id : uuid) : bool :=
  match User_objects_get db participant_id with
  | Some _ => true
  | None => false
  end.

(** The same request with another list of participant ids. *)
Definition with_participants (data : meeting_data) (ids : list uuid)
  : meeting_data :=
  {| md_start_time := md_start_time data;
     md_end_time := md_end_time data;
     md_duration_minutes := md_duration_minutes data;
     md_exclude_meeting_id := md_exclude_meeting_id data;
     md_participants := Some ids |}.

(** The window [check_meeting_conflicts] checks. *)
Definition requested_end (data : meeting_data) : Py.datetime :=
  match md_end_time data with
  | Some e => e
  | None =>
      Py.add (md_start_time data)
             (Py.minutes (get_default (md_duration_minutes data) 30))
  end.

(** The report [check_meeting_conflicts] computes for a participant. *)
Definition participant_report (db : Snapshot) (data : meeting_data)
           (participant : User.t) : ConflictDetector.report :=
  ConflictDetector.get_all_conflicts
    db (ConflictDetector.__init__ db participant (User.timezone participant))
    (md_start_time data) (requested_end data) (md_exclude_meeting_id data).

(** The entry [check_meeting_conflicts] stores for a participant, and
    the body of its loop over the participant ids. *)
Definition participant_entry_of (db : Snapshot) (data : meeting_data)
           (participant : User.t) : participant_entry :=
  {| pe_user := User.full_name participant;
     pe_conflicts := participant_report db data participant |}.

Definition record_participant (db : Snapshot) (data : meeting_data)
           (acc : list (string * participant_entry)) (participant_id : uuid)
  : list (string * participant_entry) :=
  match User_objects_get db participant_id with
  | Some participant =>
      if ConflictDetector.has_conflicts
           (participant_report db data participant)
      then dict_set acc (User.id participant)
                    (participant_entry_of db data participant)
      else acc
  | None => acc
  end.

(** The participant id [k] names a user whose report has conflicts, and
    [e] is the entry stored for that user. *)
Definition conflicted_entry (db : Snapshot) (data : meeting_data)
           (k : string) (e : participant_entry) : Prop :=
  exists p, User_objects_get db k = Some p
            /\ ConflictDetector.has_conflicts (participant_report db data p)
               = true
            /\ e = participant_entry_of db data p.

(** The suggester [check_meeting_conflicts] builds. *)
Definition alternatives_suggester (db : Snapshot) (data : meeting_data)
           (user : User.t) : SlotSuggester.t :=
  SlotSuggester.__init__
    db
    ([user] ++ User_objects_filter_id_in
                 db (get_default (md_participants data) []))
    (get_default (md_duration_minutes data) 30) (User.timezone user).

(* ================================================================= *)
(** * Properties *)

(** ** Lists and truth values *)

Lemma truthy_list_true {A : Type} (l : list A) :
  truthy_list l = true <-> l <> [].
Proof.
  destruct l as [|a l]; simpl; split; intro H;
    try discriminate; try reflexivity; contradiction.
Qed.

Lemma filter_none {A : Type} (f : A -> bool) (l : list A) :
  List.length (filter f l) = 0%nat -> forall x, In x l -> f x = false.
Proof.
  intros Hlen x Hx.
  destruct (f x) eqn:Hfx; [|reflexivity].
  assert (Hin : In x (filter f l)) by (apply filter_In; auto).
  destruct (filter f l); [contradiction | discriminate].
Qed.

Lemma firstn_In {A : Type} (n : nat) (l : list A) (x : A) :
  In x (firstn n l) -> In x l.
Proof.
  intro H. rewrite <- (firstn_skipn n l). apply in_or_app. now left.
Qed.

Lemma slice_to_incl {A : Type} (l : list A) (n : Z) (x : A) :
  In x (Py.slice_to l n) -> In x l.
Proof.
  unfold Py.slice_to.
  destruct (0 <=? n); intro H; eapply firstn_In; exact H.
Qed.

Lemma slice_to_length {A : Type} (l : list A) (n : Z) :
  0 <= n -> Z.of_nat (List.length (Py.slice_to l n)) <= n.
Proof.
  intro Hn. unfold Py.slice_to.
  destruct (0 <=? n) eqn:E; [|lia].
  pose proof (firstn_le_length (Z.to_nat n) l). lia.
Qed.

(** ** Datetimes *)

Lemma ltb_spec (a b : Py.datetime) :
  Py.ltb a b = true <-> Py.utc a < Py.utc b.
Proof. unfold Py.ltb. apply Z.ltb_lt. Qed.

Lemma gtb_spec (a b : Py.datetime) :
  Py.gtb a b = true <-> Py.utc b < Py.utc a.
Proof. unfold Py.gtb. apply Z.ltb_lt. Qed.

Lemma add_add (x : Py.datetime) (a b : Py.timedelta) :
  Py.add (Py.add x a) b = Py.add x (a + b).
Proof. unfold Py.add; simpl. f_equal. lia. Qed.

Lemma add_zero (x : Py.datetime) : Py.add x 0 = x.
Proof. destruct x; unfold Py.add; simpl. f_equal. lia. Qed.

Lemma utc_add (x : Py.datetime) (a : Py.timedelta) :
  Py.utc (Py.add x a) = Py.utc x + a.
Proof. unfold Py.utc, Py.add; simpl. lia. Qed.

(** ** The conflict checker *)

Section ConflictChecker.

Import ConflictDetector.

Variable db : Snapshot.

Lemma check_conflicts_incl self s e ex m :
  In m (check_conflicts db self s e ex) ->
  In m (overlapping_meetings db self s e).
Proof.
  unfold check_conflicts.
  destruct ex as [i|]; [destruct (truthy_str i)|]; intro H;
    try exact H.
  apply filter_In in H. apply H.
Qed.

Lemma overlapping_meetings_overlap self s e m :
  In m (overlapping_meetings db self s e) ->
  overlaps (Meeting.start_time m) (Meeting.end_time m) s e.
Proof.
  unfold overlapping_meetings. intro H.
  apply filter_In in H. destruct H as [_ H].
  rewrite !andb_true_iff in H. destruct H as [_ [Hlt Hgt]].
  split; [apply ltb_spec | apply gtb_spec]; assumption.
Qed.

Lemma check_conflicts_overlap self s e ex m :
  In m (check_conflicts db self s e ex) ->
  overlaps (Meeting.start_time m) (Meeting.end_time m) s e.
Proof.
  intro H. eapply overlapping_meetings_overlap, check_conflicts_incl.
  exact H.
Qed.

Lemma check_blocked_times_overlap self s e b :
  In b (check_blocked_times db self s e) ->
  overlaps (BlockedTime.start_datetime b) (BlockedTime.end_datetime b) s e.
Proof.
  unfold check_blocked_times. intro H.
  apply filter_In in H. destruct H as [_ H].
  rewrite !andb_true_iff in H. destruct H as [[_ Hlt] Hgt].
  split; [apply ltb_spec | apply gtb_spec]; assumption.
Qed.

Lemma touches_not_overlaps a_start a_end b_start b_end :
  touches a_start a_end b_start b_end ->
  ~ overlaps a_start a_end b_start b_end.
Proof. unfold touches, overlaps. lia. Qed.

(** The methods of a detector read its user only through the primary
    key, and never read the user table. *)
Section ById.

Variables (us : list User.t) (self1 self2 : t).
Hypothesis same_id : User.id (user self1) = User.id (user self2).
Hypothesis same_tz : tz self1 = tz self2.

Lemma is_time_within_availability_by_id day a b :
  _is_time_within_availability (with_users db us) self1 day a b
  = _is_time_within_availability db self2 day a b.
Proof.
  unfold _is_time_within_availability, live_availabilities. simpl.
  rewrite same_id. reflexivity.
Qed.

Lemma days_loop_by_id n d ls le :
  days_loop (with_users db us) n self1 d ls le = days_loop db n self2 d ls le.
Proof.
  revert d. induction n as [|n IH]; intro d; simpl; [reflexivity|].
  unfold _is_day_available.
  rewrite is_time_within_availability_by_id, IH. reflexivity.
Qed.

Lemma get_all_conflicts_by_id s e ex :
  get_all_conflicts (with_users db us) self1 s e ex
  = get_all_conflicts db self2 s e ex.
Proof.
  unfold get_all_conflicts, check_availability_window.
  rewrite same_tz, days_loop_by_id, is_time_within_availability_by_id.
  unfold check_conflicts, overlapping_meetings, check_blocked_times.
  simpl. rewrite same_id. reflexivity.
Qed.

End ById.

End ConflictChecker.

(** The loop over the days of a multi-day window exits by its condition:
    more fuel than the number of days changes nothing. *)
Lemma days_loop_fuel db self ls le (n : nat) (d : Py.date) :
  (Z.to_nat (Py.dt_date le - d + 1) <= n)%nat ->
  ConflictDetector.days_loop db n self d ls le
  = ConflictDetector.days_loop db (Z.to_nat (Py.dt_date le - d + 1))
                               self d ls le.
Proof.
  revert d. induction n as [|n IH]; intros d Hn.
  - replace (Z.to_nat (Py.dt_date le - d + 1)) with 0%nat by lia.
    reflexivity.
  - simpl. destruct (d <=? Py.dt_date le) eqn:Hd.
    + apply Z.leb_le in Hd.
      replace (Z.to_nat (Py.dt_date le - d + 1))
        with (S (Z.to_nat (Py.dt_date le - (d + 1) + 1))) in * by lia.
      simpl. apply Z.leb_le in Hd. rewrite Hd.
      destruct (ConflictDetector._is_day_available db self d ls le);
        simpl; [|reflexivity].
      apply IH. lia.
    + apply Z.leb_gt in Hd.
      replace (Z.to_nat (Py.dt_date le - d + 1)) with 0%nat by lia.
      reflexivity.
Qed.

(** On a window within one local day the availability test is the
    single-day test at the weekday of [start_time] as it was passed in,
    with the local times of day. *)
Lemma check_availability_window_single_day db self s e :
  Py.dt_date (Py.astimezone s (ConflictDetector.tz self))
  = Py.dt_date (Py.astimezone e (ConflictDetector.tz self)) ->
  ConflictDetector.check_availability_window db self s e
  = ConflictDetector._is_time_within_availability
      db self (Py.weekday s)
      (Py.dt_time (Py.astimezone s (ConflictDetector.tz self)))
      (Py.dt_time (Py.astimezone e (ConflictDetector.tz self))).
Proof.
  intro H. unfold ConflictDetector.check_availability_window.
  rewrite H, Z.eqb_refl. reflexivity.
Qed.

(** C1: the report of [get_all_conflicts] has [has_conflicts] true exactly
    when the list of conflicting meetings or the list of conflicting
    blocked times is non-empty; it is the same whatever the availability
    records, the current date and the zone of the detector are, so the
    availability verdict never sets it. *)
Theorem has_conflicts_iff_some_overlap :
  forall (db : Snapshot) (self : ConflictDetector.t)
         (start_time end_time : Py.datetime)
         (exclude_meeting_id : option uuid),
    let r := ConflictDetector.get_all_conflicts
               db self start_time end_time exclude_meeting_id in
    (ConflictDetector.has_conflicts r = true <->
     ConflictDetector.conflicting_meetings r <> []
     \/ ConflictDetector.blocked_times r <> [])
    /\ (forall (avs : list Availability.t) (day : Py.date)
               (zone : Py.tzinfo),
           ConflictDetector.has_conflicts
             (ConflictDetector.get_all_conflicts
                (with_availability db avs day)
                {| ConflictDetector.user := ConflictDetector.user self;
                   ConflictDetector.tz := zone |}
                start_time end_time exclude_meeting_id)
           = ConflictDetector.has_conflicts r).
Proof.
  intros db self s e ex r. split.
  - subst r. simpl. rewrite orb_true_iff, !truthy_list_true. reflexivity.
  - intros avs day zone. reflexivity.
Qed.

(** The report can show no conflict and yet lie outside the
    availability: Alice on Monday evening, 19:00 to 19:30. *)
Example free_but_outside_availability :
  let r := ConflictDetector.get_all_conflicts
             Scenario.office
             (ConflictDetector.__init__ Scenario.office Scenario.alice
                                        "Africa/Nairobi")
             (Scenario.at_zone Scenario.nairobi 2024 6 3 19 0 0)
             (Scenario.at_zone Scenario.nairobi 2024 6 3 19 30 0) None in
  ConflictDetector.has_conflicts r = false
  /\ ConflictDetector.within_availability r = false.
Proof. vm_compute. split; reflexivity. Qed.

(** C2: a meeting or blocked time that touches the candidate window at a
    boundary (it ends at the instant the window starts, or starts at the
    instant the window ends) is not among the conflicts. *)
Theorem boundary_touch_is_no_conflict :
  forall (db : Snapshot) (self : ConflictDetector.t)
         (start_time end_time : Py.datetime)
         (exclude_meeting_id : option uuid),
    (forall m : Meeting.t,
        touches (Meeting.start_time m) (Meeting.end_time m)
                start_time end_time ->
        ~ In m (ConflictDetector.check_conflicts
                  db self start_time end_time exclude_meeting_id))
    /\ (forall b : BlockedTime.t,
           touches (BlockedTime.start_datetime b) (BlockedTime.end_datetime b)
                   start_time end_time ->
           ~ In b (ConflictDetector.check_blocked_times
                     db self start_time end_time)).
Proof.
  intros db self s e ex. split.
  - intros m Ht Hin.
    apply (touches_not_overlaps _ _ _ _ Ht).
    eapply check_conflicts_overlap. exact Hin.
  - intros b Ht Hin.
    apply (touches_not_overlaps _ _ _ _ Ht).
    eapply check_blocked_times_overlap. exact Hin.
Qed.

Lemma boundary_touch_is_no_conflict_witness :
  let db := Scenario.office in
  let alice := ConflictDetector.__init__ db Scenario.alice "Africa/Nairobi" in
  let bob := ConflictDetector.__init__ db Scenario.bob "Africa/Nairobi" in
  let t1000 := Scenario.at_zone Scenario.nairobi 2024 6 3 10 0 0 in
  let t1030 := Scenario.at_zone Scenario.nairobi 2024 6 3 10 30 0 in
  let t1100 := Scenario.at_zone Scenario.nairobi 2024 6 3 11 0 0 in
  (touches (Meeting.start_time Scenario.standup)
           (Meeting.end_time Scenario.standup) t1030 t1100
   /\ ~ In Scenario.standup
          (ConflictDetector.check_conflicts db alice t1030 t1100 None))
  /\ (touches (BlockedTime.start_datetime Scenario.leave)
              (BlockedTime.end_datetime Scenario.leave) t1000 t1030
      /\ ~ In Scenario.leave
             (ConflictDetector.check_blocked_times db bob t1000 t1030)).
Proof.
  intros db alice bob t1000 t1030 t1100.
  assert (Hm : touches (Meeting.start_time Scenario.standup)
                       (Meeting.end_time Scenario.standup) t1030 t1100)
    by (left; reflexivity).
  assert (Hb : touches (BlockedTime.start_datetime Scenario.leave)
                       (BlockedTime.end_datetime Scenario.leave) t1000 t1030)
    by (left; reflexivity).
  split; (split; [assumption|]).
  - exact (proj1 (boundary_touch_is_no_conflict db alice t1030 t1100 None)
                 Scenario.standup Hm).
  - exact (proj2 (boundary_touch_is_no_conflict db bob t1000 t1030 None)
                 Scenario.leave Hb).
Defined.

(** The scenario of the specification: Alice's meeting from 10:00 to 10:30
    conflicts with 10:15 to 10:45 and not with 10:30 to 11:00. *)
Example standup_scenario :
  let db := Scenario.office in
  let alice := ConflictDetector.__init__ db Scenario.alice "Africa/Nairobi" in
  let report h1 m1 h2 m2 :=
    ConflictDetector.get_all_conflicts
      db alice (Scenario.at_zone Scenario.nairobi 2024 6 3 h1 m1 0)
      (Scenario.at_zone Scenario.nairobi 2024 6 3 h2 m2 0) None in
  ConflictDetector.has_conflicts (report 10 15 10 45) = true
  /\ ConflictDetector.conflicting_meetings (report 10 15 10 45)
     = [Scenario.standup]
  /\ ConflictDetector.has_conflicts (report 10 30 11 0) = false.
Proof. vm_compute. repeat split; reflexivity. Qed.

(** C4: when the person has no live availability window for the weekday,
    the single-day test accepts a time range exactly when it starts at or
    after 08:00 and ends at or before 18:00. *)
Theorem default_business_hours_fallback :
  forall (db : Snapshot) (self : ConflictDetector.t) (day_of_week : Z)
         (start_time end_time : Py.time),
    ConflictDetector.live_availabilities db self day_of_week = [] ->
    (ConflictDetector._is_time_within_availability
       db self day_of_week start_time end_time = true
     <-> Py.mk_time 8 0 <= start_time /\ end_time <= Py.mk_time 18 0).
Proof.
  intros db self day s e Hnone.
  unfold ConflictDetector._is_time_within_availability.
  rewrite Hnone. simpl negb. cbv iota.
  unfold ConflictDetector.default_start, ConflictDetector.default_end.
  rewrite andb_true_iff, !Z.leb_le. reflexivity.
Qed.

Lemma default_business_hours_fallback_witness :
  let db := Scenario.office in
  let alice := ConflictDetector.__init__ db Scenario.alice "Africa/Nairobi" in
  ConflictDetector.live_availabilities db alice 0 = []
  /\ (ConflictDetector._is_time_within_availability
        db alice 0 (Py.mk_time 17 30) (Py.mk_time 18 0) = true
      <-> Py.mk_time 8 0 <= Py.mk_time 17 30
          /\ Py.mk_time 18 0 <= Py.mk_time 18 0).
Proof.
  intros db alice. split; [reflexivity|].
  apply (default_business_hours_fallback db alice 0); reflexivity.
Defined.

(** The same on a whole window: for a window within one local day whose
    start is already expressed in the zone of the detector, and a person
    with no live window that weekday, the window is within availability
    exactly when its local times lie in 08:00 to 18:00. *)
Lemma default_fallback_on_window db self s e :
  let ls := Py.astimezone s (ConflictDetector.tz self) in
  let le := Py.astimezone e (ConflictDetector.tz self) in
  Py.dt_date ls = Py.dt_date le ->
  ConflictDetector.live_availabilities db self (Py.weekday s) = [] ->
  (ConflictDetector.check_availability_window db self s e = true
   <-> Py.mk_time 8 0 <= Py.dt_time ls /\ Py.dt_time le <= Py.mk_time 18 0).
Proof.
  intros ls le Hday Hnone.
  rewrite check_availability_window_single_day by exact Hday.
  unfold ConflictDetector._is_time_within_availability.
  rewrite Hnone. simpl negb. cbv iota.
  unfold ConflictDetector.default_start, ConflictDetector.default_end.
  rewrite andb_true_iff, !Z.leb_le. reflexivity.
Qed.

(** C7: the weekday is read from [start_time] before the conversion to the
    local zone.  Alice, in Nairobi, is available on Mondays from 00:00 to
    06:00; the window from 22:00 to 22:30 UTC on Sunday 2024-06-02 is
    Monday 01:00 to 01:30 for her, within one local day.  The windows of
    the local weekday (Monday) contain it, but the code consults Sunday,
    finds no window, falls back to 08:00-18:00 and answers false. *)
Theorem weekday_is_read_before_conversion :
  let db := Scenario.office_with_night_shift in
  let alice := ConflictDetector.__init__ db Scenario.alice "Africa/Nairobi" in
  let start_time := Scenario.at_zone Scenario.utc_zone 2024 6 2 22 0 0 in
  let end_time := Scenario.at_zone Scenario.utc_zone 2024 6 2 22 30 0 in
  let local_start := Py.astimezone start_time (ConflictDetector.tz alice) in
  let local_end := Py.astimezone end_time (ConflictDetector.tz alice) in
  Py.dt_date local_start = Py.dt_date local_end
  /\ Py.weekday local_start = 0
  /\ Py.weekday start_time = 6
  /\ ConflictDetector._is_time_within_availability
       db alice (Py.weekday local_start)
       (Py.dt_time local_start) (Py.dt_time local_end) = true
  /\ ConflictDetector.check_availability_window db alice start_time end_time
     = false.
Proof. vm_compute. repeat split; reflexivity. Qed.

(** The multi-day path of the same method does take the weekday of each
    local date. *)
Lemma day_available_uses_local_weekday db self date ls le :
  exists a b,
    ConflictDetector._is_day_available db self date ls le
    = ConflictDetector._is_time_within_availability
        db self (Py.date_weekday date) a b.
Proof. unfold ConflictDetector._is_day_available. eauto. Qed.

(** C8, as the specification states it, fails: the window from 10:20 back
    to 10:10 is malformed, and the call returns a report (which even lists
    Alice's meeting). *)
Lemma malformed_window_does_not_fail_fast :
  ~ fails_fast Scenario.office
      (ConflictDetector.__init__ Scenario.office Scenario.alice
                                 "Africa/Nairobi")
      (Scenario.at_zone Scenario.nairobi 2024 6 3 10 20 0)
      (Scenario.at_zone Scenario.nairobi 2024 6 3 10 10 0) None.
Proof.
  unfold fails_fast, malformed. intro H.
  destruct H as [e He]; [vm_compute; discriminate | discriminate He].
Qed.

(** C8, amended: on a malformed window [get_all_conflicts] does not fail.
    It returns the report of the same strict overlap test: the listed
    meetings and blocked times start before the end of the window and end
    after its start, and [has_conflicts] tells whether there is any. *)
Theorem malformed_window_is_reported :
  forall (db : Snapshot) (self : ConflictDetector.t)
         (start_time end_time : Py.datetime)
         (exclude_meeting_id : option uuid),
    malformed start_time end_time ->
    exists r,
      ConflictDetector.get_all_conflicts_outcome
        db self start_time end_time exclude_meeting_id = Returned r
      /\ (forall m, In m (ConflictDetector.conflicting_meetings r) ->
                    Py.utc (Meeting.start_time m) < Py.utc end_time
                    /\ Py.utc end_time <= Py.utc start_time
                    /\ Py.utc start_time < Py.utc (Meeting.end_time m))
      /\ (forall b, In b (ConflictDetector.blocked_times r) ->
                    Py.utc (BlockedTime.start_datetime b) < Py.utc end_time
                    /\ Py.utc end_time <= Py.utc start_time
                    /\ Py.utc start_time < Py.utc (BlockedTime.end_datetime b))
      /\ (ConflictDetector.has_conflicts r = true <->
          ConflictDetector.conflicting_meetings r <> []
          \/ ConflictDetector.blocked_times r <> []).
Proof.
  intros db self s e ex Hbad.
  eexists. split; [reflexivity|]. simpl. repeat split.
  - apply (check_conflicts_overlap _ _ _ _ _ _ H).
  - exact Hbad.
  - apply (check_conflicts_overlap _ _ _ _ _ _ H).
  - apply (check_blocked_times_overlap _ _ _ _ _ H).
  - exact Hbad.
  - apply (check_blocked_times_overlap _ _ _ _ _ H).
  - rewrite orb_true_iff, !truthy_list_true. tauto.
  - rewrite orb_true_iff, !truthy_list_true. tauto.
Qed.

Lemma malformed_window_is_reported_witness :
  let db := Scenario.office in
  let alice := ConflictDetector.__init__ db Scenario.alice "Africa/Nairobi" in
  let t1020 := Scenario.at_zone Scenario.nairobi 2024 6 3 10 20 0 in
  let t1010 := Scenario.at_zone Scenario.nairobi 2024 6 3 10 10 0 in
  malformed t1020 t1010
  /\ exists r,
       ConflictDetector.get_all_conflicts_outcome db alice t1020 t1010 None
       = Returned r.
Proof.
  intros db alice t1020 t1010.
  assert (Hbad : malformed t1020 t1010) by (vm_compute; discriminate).
  split; [exact Hbad|].
  destruct (malformed_window_is_reported db alice t1020 t1010 None Hbad)
    as [r [Hr _]].
  exists r. exact Hr.
Defined.

(** ** The slot suggester *)

Section Suggester.

Import SlotSuggester.

Variable db : Snapshot.

Lemma check_slot_true self a b :
  fst (_check_slot_for_all_users db self a b) = true ->
  forall u, In u (users self) -> unavailable db self a b u = false.
Proof.
  unfold _check_slot_for_all_users. simpl. intros H u Hu.
  apply Nat.eqb_eq in H. eapply filter_none; eassumption.
Qed.

Lemma unavailable_false_free self s u :
  unavailable db self (start_time s) (end_time s) u = false ->
  free_for db self s u.
Proof.
  unfold unavailable, free_for. intro H.
  apply orb_false_iff in H. destruct H as [Hc Ha].
  apply negb_false_iff in Ha. split; [|exact Ha].
  intro timezone_str. exact Hc.
Qed.

Lemma half_hours_after_S x k :
  half_hours_after (Py.add x (Py.minutes 30)) k = half_hours_after x (S k).
Proof.
  unfold half_hours_after. rewrite add_add. f_equal.
  unfold Py.minutes. lia.
Qed.

Lemma half_hours_after_0 x : half_hours_after x 0 = x.
Proof. unfold half_hours_after. apply add_zero. Qed.

(** Every slot the day loop adds is a checked candidate: it starts a
    whole number of half hours after the first candidate, it still fits
    before [end_time], and every user passed the check. *)
Lemma slots_loop_In self day fuel :
  forall cur end_time acc s,
    In s (slots_loop db fuel self day cur end_time acc) ->
    In s acc
    \/ exists k : nat,
        s = day_slot self day (half_hours_after cur k)
                     (Py.add (half_hours_after cur k) (duration self))
        /\ fst (_check_slot_for_all_users
                  db self (half_hours_after cur k)
                  (Py.add (half_hours_after cur k) (duration self))) = true
        /\ Py.leb (Py.add (half_hours_after cur k) (duration self)) end_time
           = true.
Proof.
  induction fuel as [|fuel IH]; intros cur end_time acc s Hin;
    cbn [slots_loop] in Hin.
  - now left.
  - destruct (Py.leb (Py.add cur (duration self)) end_time) eqn:Hfit;
      [|now left].
    destruct (_check_slot_for_all_users db self cur
                (Py.add cur (duration self))) as [ok un] eqn:Hcheck.
    apply IH in Hin. destruct Hin as [Hin | [k Hk]].
    + destruct ok; [|now left].
      apply in_app_or in Hin. destruct Hin as [Hin | [Hs | []]];
        [now left|].
      right. exists 0%nat. rewrite half_hours_after_0, Hcheck.
      repeat split; [now symmetry | assumption].
    + right. exists (S k). rewrite <- half_hours_after_S. exact Hk.
Qed.

(** The day loop exits by its condition: more fuel than [slots_fuel]
    changes nothing. *)
Lemma slots_fuel_step self cur end_time :
  Py.leb (Py.add cur (duration self)) end_time = true ->
  slots_fuel self cur end_time
  = S (slots_fuel self (Py.add cur (Py.minutes 30)) end_time).
Proof.
  unfold Py.leb, slots_fuel. rewrite !utc_add. intro H.
  apply Z.leb_le in H.
  set (m := Py.minutes 30).
  assert (Hm : 0 < m) by reflexivity.
  replace (Py.utc end_time - (Py.utc cur + m) - duration self)
    with ((Py.utc end_time - Py.utc cur - duration self) + (-1) * m) by lia.
  rewrite Z.div_add by lia.
  assert (0 <= (Py.utc end_time - Py.utc cur - duration self) / m)
    by (apply Z.div_pos; lia).
  lia.
Qed.

Lemma slots_fuel_done self cur end_time :
  Py.leb (Py.add cur (duration self)) end_time = false ->
  slots_fuel self cur end_time = 0%nat.
Proof.
  unfold Py.leb, slots_fuel. rewrite !utc_add. intro H.
  apply Z.leb_gt in H.
  set (m := Py.minutes 30).
  assert (Hm : 0 < m) by reflexivity.
  assert ((Py.utc end_time - Py.utc cur - duration self) / m < 0)
    by (apply Z.div_lt_upper_bound; lia).
  lia.
Qed.

Lemma slots_loop_fuel self day end_time (n : nat) :
  forall cur acc,
    (slots_fuel self cur end_time <= n)%nat ->
    slots_loop db n self day cur end_time acc
    = slots_loop db (slots_fuel self cur end_time) self day cur end_time acc.
Proof.
  induction n as [|n IH]; intros cur acc Hn.
  - replace (slots_fuel self cur end_time) with 0%nat by lia. reflexivity.
  - destruct (Py.leb (Py.add cur (duration self)) end_time) eqn:Hfit.
    + rewrite (slots_fuel_step _ _ _ Hfit) in *. cbn [slots_loop].
      rewrite Hfit.
      destruct (_check_slot_for_all_users db self cur
                  (Py.add cur (duration self))) as [ok un].
      apply IH. lia.
    + rewrite (slots_fuel_done _ _ _ Hfit). cbn [slots_loop]. rewrite Hfit.
      reflexivity.
Qed.

(** Every slot the date loop adds comes from a scanned date that is not
    on a weekend. *)
Lemma dates_loop_In self end_date num fuel :
  forall cur acc s,
    In s (dates_loop db fuel self cur end_date num acc) ->
    In s acc
    \/ exists d,
        cur <= d <= end_date
        /\ Py.date_weekday d < 5
        /\ In s (_get_available_slots_for_day db self d).
Proof.
  induction fuel as [|fuel IH]; intros cur acc s Hin;
    cbn [dates_loop] in Hin.
  - now left.
  - destruct ((cur <=? end_date)
              && (Z.of_nat (List.length acc) <? num)) eqn:Hcond;
      [|now left].
    apply andb_prop in Hcond. destruct Hcond as [Hle _].
    apply Z.leb_le in Hle.
    apply IH in Hin. destruct Hin as [Hin | [d [Hd Hrest]]].
    + destruct (Py.date_weekday cur <? 5) eqn:Hwd; [|now left].
      apply in_app_or in Hin. destruct Hin as [Hin | Hin]; [now left|].
      right. exists cur. apply Z.ltb_lt in Hwd.
      repeat split; (lia || assumption).
    + right. exists d. split; [lia | exact Hrest].
Qed.

(** The date loop exits by its condition: more fuel than the number of
    dates in the horizon changes nothing. *)
Lemma dates_loop_fuel self end_date num (n : nat) :
  forall cur acc,
    (Z.to_nat (end_date - cur + 1) <= n)%nat ->
    dates_loop db n self cur end_date num acc
    = dates_loop db (Z.to_nat (end_date - cur + 1)) self cur end_date num acc.
Proof.
  induction n as [|n IH]; intros cur acc Hn.
  - replace (Z.to_nat (end_date - cur + 1)) with 0%nat by lia. reflexivity.
  - destruct (cur <=? end_date) eqn:Hle.
    + apply Z.leb_le in Hle.
      replace (Z.to_nat (end_date - cur + 1))
        with (S (Z.to_nat (end_date - (cur + 1) + 1))) in * by lia.
      cbn [dates_loop]. apply Z.leb_le in Hle. rewrite Hle.
      destruct (true && (Z.of_nat (List.length acc) <? num));
        [|reflexivity].
      apply IH. lia.
    + cbn [dates_loop]. rewrite Hle. cbn [andb].
      apply Z.leb_gt in Hle.
      replace (Z.to_nat (end_date - cur + 1)) with 0%nat by lia.
      reflexivity.
Qed.

(** What [suggest_slots] returns: checked candidates of weekdays within
    the horizon. *)
Lemma suggest_slots_In self preferred num horizon s :
  In s (suggest_slots db self preferred num horizon) ->
  exists (d : Py.date) (k : nat),
    let first := Py.localize (tz self)
                             (Py.combine d (business_start self)) in
    let last := Py.localize (tz self) (Py.combine d (business_end self)) in
    let t := half_hours_after first k in
    preferred <= d <= preferred + horizon
    /\ Py.date_weekday d < 5
    /\ s = day_slot self d t (Py.add t (duration self))
    /\ fst (_check_slot_for_all_users db self t (Py.add t (duration self)))
       = true
    /\ Py.leb (Py.add t (duration self)) last = true.
Proof.
  unfold suggest_slots. intro Hin.
  apply slice_to_incl, dates_loop_In in Hin.
  destruct Hin as [[] | [d [Hd [Hwd Hin]]]].
  unfold _get_available_slots_for_day in Hin.
  apply slots_loop_In in Hin. destruct Hin as [[] | [k Hk]].
  exists d, k. cbv zeta. tauto.
Qed.

(** What [find_next_available_slot] returns: a candidate that passed the
    check. *)
Lemma search_loop_found self end_search fuel :
  forall cur s,
    search_loop db fuel self cur end_search = Some (Some s) ->
    exists t,
      s = next_slot self t (Py.add t (duration self))
      /\ fst (_check_slot_for_all_users db self t (Py.add t (duration self)))
         = true.
Proof.
  induction fuel as [|fuel IH]; intros cur s H;
    cbn [search_loop] in H; [discriminate|].
  destruct (Py.ltb cur end_search); [|discriminate].
  repeat match type of H with
         | (let '(_, _) := ?x in _) = _ =>
             let a := fresh "a" in let b := fresh "b" in
             let E := fresh "E" in
             destruct x as [a b] eqn:E
         | (if ?c then _ else _) = _ =>
             first [ is_var c; destruct c
                   | let E := fresh "E" in destruct c eqn:E ]
         end;
    try (apply IH in H; exact H).
  injection H as <-. eexists. split; [reflexivity|].
  match goal with E : _check_slot_for_all_users _ _ _ _ = _ |- _ =>
    rewrite E end.
  reflexivity.
Qed.

End Suggester.

(** C6: every slot returned by [suggest_slots] or by
    [find_next_available_slot] is free for every person of the set: the
    report of [get_all_conflicts] on the same snapshot, from the detector
    the suggester builds for that person, has [has_conflicts] false and
    [within_availability] true. *)
Theorem returned_slots_are_free_for_all :
  forall (db : Snapshot) (self : SlotSuggester.t),
    (forall (preferred_date : Py.date) (num_suggestions days_to_search : Z)
            (s : SlotSuggester.slot),
        In s (SlotSuggester.suggest_slots db self preferred_date
                                          num_suggestions days_to_search) ->
        free_for_all db self s)
    /\ (forall (fuel : nat) (after_time : Py.datetime) (max_days : Z)
               (s : SlotSuggester.slot),
           SlotSuggester.find_next_available_slot db fuel self after_time
                                                  max_days = Some (Some s) ->
           free_for_all db self s).
Proof.
  intros db self. split.
  - intros preferred num horizon s Hin u Hu.
    apply suggest_slots_In in Hin.
    destruct Hin as [d [k [_ [_ [-> [Hok _]]]]]].
    apply unavailable_false_free. simpl.
    eapply check_slot_true; eassumption.
  - intros fuel after max_days s Hfound u Hu.
    apply search_loop_found in Hfound.
    destruct Hfound as [t [-> Hok]].
    apply unavailable_false_free. simpl.
    eapply check_slot_true; eassumption.
Qed.

Lemma returned_slots_are_free_for_all_witness :
  let db := Scenario.office in
  let self := SlotSuggester.__init__
                db [Scenario.alice; Scenario.bob] 30 "Africa/Nairobi" in
  let monday := Py.mk_date 2024 6 3 in
  let t0800 := Scenario.at_zone Scenario.nairobi 2024 6 3 8 0 0 in
  let t0830 := Scenario.at_zone Scenario.nairobi 2024 6 3 8 30 0 in
  let t0900 := Scenario.at_zone Scenario.nairobi 2024 6 3 9 0 0 in
  let t1030 := Scenario.at_zone Scenario.nairobi 2024 6 3 10 30 0 in
  let t1100 := Scenario.at_zone Scenario.nairobi 2024 6 3 11 0 0 in
  (In (SlotSuggester.day_slot self monday t0800 t0830)
      (SlotSuggester.suggest_slots db self monday 5 7)
   /\ free_for_all db self (SlotSuggester.day_slot self monday t0800 t0830))
  /\ (SlotSuggester.find_next_available_slot db 8 self t0900 14
      = Some (Some (SlotSuggester.next_slot self t1030 t1100))
      /\ free_for_all db self (SlotSuggester.next_slot self t1030 t1100)).
Proof.
  intros db self monday t0800 t0830 t0900 t1030 t1100.
  assert (Hin : In (SlotSuggester.day_slot self monday t0800 t0830)
                   (SlotSuggester.suggest_slots db self monday 5 7))
    by (vm_compute; left; reflexivity).
  assert (Hnext : SlotSuggester.find_next_available_slot db 8 self t0900 14
                  = Some (Some (SlotSuggester.next_slot self t1030 t1100)))
    by (vm_compute; reflexivity).
  split; (split; [assumption|]).
  - exact (proj1 (returned_slots_are_free_for_all db self) monday 5 7 _ Hin).
  - exact (proj2 (returned_slots_are_free_for_all db self) 8%nat t0900 14 _
                 Hnext).
Defined.

(** The availability half of the re-check is in the zone of the
    suggester.  A detector built with the timezone stored with the user,
    as [check_meeting_conflicts] builds it, can disagree: 08:00 in Nairobi
    is 05:00 for a user whose stored timezone is UTC. *)
Example availability_is_judged_in_the_suggester_zone :
  let db := Scenario.office in
  let self := SlotSuggester.__init__
                db [Scenario.alice_in_utc] 30 "Africa/Nairobi" in
  let s := SlotSuggester.day_slot
             self (Py.mk_date 2024 6 3)
             (Scenario.at_zone Scenario.nairobi 2024 6 3 8 0 0)
             (Scenario.at_zone Scenario.nairobi 2024 6 3 8 30 0) in
  In s (SlotSuggester.suggest_slots db self (Py.mk_date 2024 6 3) 5 7)
  /\ ConflictDetector.within_availability
       (ConflictDetector.get_all_conflicts
          db (ConflictDetector.__init__
                db Scenario.alice_in_utc
                (User.timezone Scenario.alice_in_utc))
          (SlotSuggester.start_time s) (SlotSuggester.end_time s) None)
     = false.
Proof. split; [vm_compute; left; reflexivity | vm_compute; reflexivity]. Qed.

(** A wall clock between midnight of [d] and the next midnight is on
    date [d]. *)
Lemma date_of_wall (d : Py.date) (w : Py.naive) :
  Py.combine d 0 <= w < Py.combine (d + 1) 0 ->
  w / Py.us_per_day = d.
Proof.
  unfold Py.combine. intro H.
  assert (Hday : Py.us_per_day = 86400000000) by reflexivity.
  symmetry. apply (Z.div_unique w Py.us_per_day d (w - Py.us_per_day * d));
    lia.
Qed.

(** C5: no slot returned by [suggest_slots] has a calendar date on a
    Saturday or Sunday.  The [date] key of every returned slot is a date
    of the scanned horizon whose weekday is Monday to Friday; and when
    the duration is not negative and the zone has one offset through the
    business hours of that date, the start and the end of the slot fall
    on that same date. *)
Theorem suggested_slots_are_on_weekdays :
  forall (db : Snapshot) (users : list User.t) (duration_minutes : Z)
         (timezone_str : string) (preferred_date : Py.date)
         (num_suggestions days_to_search : Z) (s : SlotSuggester.slot),
    let self :=
      SlotSuggester.__init__ db users duration_minutes timezone_str in
    In s (SlotSuggester.suggest_slots db self preferred_date
                                      num_suggestions days_to_search) ->
    exists d : Py.date,
      SlotSuggester.date s = Some d
      /\ preferred_date <= d <= preferred_date + days_to_search
      /\ 0 <= Py.date_weekday d < 5
      /\ (0 <= duration_minutes ->
          Py.localize_offset (SlotSuggester.tz self)
                             (Py.combine d (Py.mk_time 8 0))
          = Py.localize_offset (SlotSuggester.tz self)
                               (Py.combine d (Py.mk_time 18 0)) ->
          Py.dt_date (SlotSuggester.start_time s) = d
          /\ Py.dt_date (SlotSuggester.end_time s) = d).
Proof.
  intros db users minutes z preferred num horizon s self Hin.
  apply suggest_slots_In in Hin.
  destruct Hin as [d [k [Hd [Hwd [-> [_ Hfit]]]]]].
  exists d. split; [reflexivity|]. split; [exact Hd|].
  split.
  - split; [|exact Hwd]. unfold Py.date_weekday.
    apply Z.mod_pos_bound. lia.
  - intros Hdur Hoff.
    unfold Py.leb in Hfit. apply Z.leb_le in Hfit.
    revert Hfit Hoff. subst self.
    cbn [SlotSuggester.day_slot SlotSuggester.start_time
         SlotSuggester.end_time].
    unfold half_hours_after, Py.utc, Py.add, Py.localize, Py.dt_date.
    cbn [Py.wall Py.utcoffset SlotSuggester.business_start
         SlotSuggester.business_end SlotSuggester.duration
         SlotSuggester.tz SlotSuggester.__init__].
    intros Hfit Hoff. rewrite Hoff in Hfit.
    assert (H30 : Py.minutes (30 * Z.of_nat k) = 1800000000 * Z.of_nat k)
      by (unfold Py.minutes; change Py.us_per_minute with 60000000; lia).
    assert (Hm : Py.minutes minutes = 60000000 * minutes)
      by (unfold Py.minutes; change Py.us_per_minute with 60000000; lia).
    rewrite H30, Hm in *.
    unfold Py.combine in *.
    change (Py.mk_time 8 0) with 28800000000 in *.
    change (Py.mk_time 18 0) with 64800000000 in *.
    split; apply date_of_wall; unfold Py.combine;
      change Py.us_per_day with 86400000000 in *; lia.
Qed.

(** From Friday 2024-06-07 the twenty slots of Friday are followed by
    Monday 08:00: the weekend is skipped though both users are free. *)
Lemma suggested_slots_are_on_weekdays_witness :
  let db := Scenario.office in
  let self := SlotSuggester.__init__
                db [Scenario.alice; Scenario.bob] 30 "Africa/Nairobi" in
  let s := SlotSuggester.day_slot
             self (Py.mk_date 2024 6 10)
             (Scenario.at_zone Scenario.nairobi 2024 6 10 8 0 0)
             (Scenario.at_zone Scenario.nairobi 2024 6 10 8 30 0) in
  In s (SlotSuggester.suggest_slots db self (Py.mk_date 2024 6 7) 30 7)
  /\ exists d : Py.date,
       SlotSuggester.date s = Some d /\ 0 <= Py.date_weekday d < 5
       /\ Py.dt_date (SlotSuggester.start_time s) = d.
Proof.
  intros db self s.
  assert (Hin : In s (SlotSuggester.suggest_slots
                        db self (Py.mk_date 2024 6 7) 30 7))
    by (vm_compute; do 20 right; left; reflexivity).
  split; [exact Hin|].
  destruct (suggested_slots_are_on_weekdays
              db [Scenario.alice; Scenario.bob] 30 "Africa/Nairobi"
              (Py.mk_date 2024 6 7) 30 7 s Hin)
    as [d [Hdate [_ [Hwd Hsame]]]].
  exists d. split; [exact Hdate|]. split; [exact Hwd|].
  apply Hsame; [lia | reflexivity].
Defined.

(** C3, as the specification states it, fails: Alice asks for Monday
    10:15 with Bob, her meeting conflicts, and five alternatives come
    back. *)
Lemma five_alternatives_are_returned :
  ~ alternatives_at_most
      3 Scenario.office
      {| md_start_time := Scenario.at_zone Scenario.nairobi 2024 6 3 10 15 0;
         md_end_time := None;
         md_duration_minutes := None;
         md_exclude_meeting_id := None;
         md_participants := Some ["b2"%string] |}
      Scenario.alice.
Proof.
  unfold alternatives_at_most. intro H.
  assert (Hlen : (5 <= 3)%nat) by (apply H; vm_compute; reflexivity).
  lia.
Qed.

(** C3, amended: whenever [check_meeting_conflicts] finds a conflict, its
    [suggested_alternatives] has at most 5 slots, the default
    [num_suggestions] of [suggest_slots]. *)
Theorem alternatives_are_at_most_five :
  forall (db : Snapshot) (data : meeting_data) (user : User.t),
    alternatives_at_most 5 db data user.
Proof.
  intros db data user. unfold alternatives_at_most. intros _.
  unfold check_meeting_conflicts. cbn [suggested_alternatives].
  match goal with |- (List.length (if ?c then _ else _) <= _)%nat =>
    destruct c end; [|simpl; lia].
  unfold SlotSuggester.suggest_slots.
  match goal with |- (List.length (Py.slice_to ?l ?n) <= _)%nat =>
    pose proof (slice_to_length l n) as Hlen end.
  unfold SlotSuggester.default_num_suggestions in *. lia.
Qed.

Lemma alternatives_are_at_most_five_witness :
  let db := Scenario.office in
  let data :=
    {| md_start_time := Scenario.at_zone Scenario.nairobi 2024 6 3 10 15 0;
       md_end_time := None;
       md_duration_minutes := None;
       md_exclude_meeting_id := None;
       md_participants := Some ["b2"%string] |} in
  has_any_conflicts (check_meeting_conflicts db data Scenario.alice) = true
  /\ (List.length (suggested_alternatives
                     (check_meeting_conflicts db data Scenario.alice))
      <= 5)%nat.
Proof.
  intros db data. split; [reflexivity|].
  apply (alternatives_are_at_most_five db data Scenario.alice). reflexivity.
Defined.

(** Without a conflict the suggester is not called. *)
Lemma no_conflict_no_alternatives db data user :
  has_any_conflicts (check_meeting_conflicts db data user) = false ->
  suggested_alternatives (check_meeting_conflicts db data user) = [].
Proof.
  unfold check_meeting_conflicts.
  cbn [has_any_conflicts suggested_alternatives].
  intros ->. reflexivity.
Qed.

(** ** The suggester and the timezone stored with a user *)

Section StoredTimezone.

Import SlotSuggester.

Variables (db : Snapshot) (table2 : list User.t).
Variables (self : SlotSuggester.t) (users2 : list User.t).
Hypothesis same_people : Forall2 differ_only_in_timezone (users self) users2.

Let db2 := with_users db table2.
Let self2 := with_people self users2.

Lemma unavailable_by_id a b u1 u2 :
  differ_only_in_timezone u1 u2 ->
  unavailable db2 self2 a b u2 = unavailable db self a b u1.
Proof.
  intros [Hid _]. unfold unavailable.
  rewrite (get_all_conflicts_by_id
             db table2
             (ConflictDetector.__init__ db2 u2 (Py.zone (tz self2)))
             (ConflictDetector.__init__ db u1 (Py.zone (tz self))));
    [reflexivity | symmetry; exact Hid | reflexivity].
Qed.

Lemma filter_length_related (f1 f2 : User.t -> bool) l1 l2 :
  Forall2 differ_only_in_timezone l1 l2 ->
  (forall u1 u2, differ_only_in_timezone u1 u2 -> f2 u2 = f1 u1) ->
  List.length (filter f2 l2) = List.length (filter f1 l1).
Proof.
  intros Hrel Hf. induction Hrel as [|u1 u2 l1 l2 Hu _ IH]; simpl.
  - reflexivity.
  - rewrite (Hf _ _ Hu). destruct (f1 u1); simpl; now rewrite IH.
Qed.

Lemma check_slot_by_id a b :
  fst (_check_slot_for_all_users db2 self2 a b)
  = fst (_check_slot_for_all_users db self a b).
Proof.
  unfold _check_slot_for_all_users. cbn [fst].
  f_equal. apply filter_length_related; [exact same_people|].
  intros u1 u2. apply unavailable_by_id.
Qed.

Lemma slots_loop_by_id day end_time fuel :
  forall cur acc,
    slots_loop db2 fuel self2 day cur end_time acc
    = slots_loop db fuel self day cur end_time acc.
Proof.
  induction fuel as [|fuel IH]; intros cur acc; cbn [slots_loop];
    [reflexivity|].
  change (duration self2) with (duration self).
  destruct (Py.leb (Py.add cur (duration self)) end_time); [|reflexivity].
  pose proof (check_slot_by_id cur (Py.add cur (duration self))) as Hc.
  destruct (_check_slot_for_all_users db2 self2 cur
              (Py.add cur (duration self))) as [ok2 un2].
  destruct (_check_slot_for_all_users db self cur
              (Py.add cur (duration self))) as [ok un].
  cbn [fst] in Hc. subst ok2. rewrite IH. reflexivity.
Qed.

Lemma dates_loop_by_id end_date num fuel :
  forall cur acc,
    dates_loop db2 fuel self2 cur end_date num acc
    = dates_loop db fuel self cur end_date num acc.
Proof.
  induction fuel as [|fuel IH]; intros cur acc; cbn [dates_loop];
    [reflexivity|].
  unfold _get_available_slots_for_day.
  rewrite slots_loop_by_id, IH. reflexivity.
Qed.

Lemma suggest_slots_by_id preferred num horizon :
  suggest_slots db2 self2 preferred num horizon
  = suggest_slots db self preferred num horizon.
Proof. unfold suggest_slots. rewrite dates_loop_by_id. reflexivity. Qed.

Lemma search_loop_by_id end_search fuel :
  forall cur,
    search_loop db2 fuel self2 cur end_search
    = search_loop db fuel self cur end_search.
Proof.
  induction fuel as [|fuel IH]; intros cur; cbn [search_loop];
    [reflexivity|].
  change (duration self2) with (duration self).
  change (tz self2) with (tz self).
  change (business_start self2) with (business_start self).
  change (business_end self2) with (business_end self).
  destruct (Py.ltb cur end_search); [|reflexivity].
  match goal with
  | |- (let '(_, _) := ?x in _) = _ => destruct x as [ct continue]
  end.
  destruct continue; [apply IH|].
  destruct (5 <=? Py.weekday ct); [apply IH|].
  match goal with
  | |- context [_check_slot_for_all_users db2 self2 ?a ?b] =>
      pose proof (check_slot_by_id a b) as Hc;
      destruct (_check_slot_for_all_users db2 self2 a b) as [ok2 un2];
      destruct (_check_slot_for_all_users db self a b) as [ok un]
  end.
  cbn [fst] in Hc. subst ok2. destruct ok; [reflexivity | apply IH].
Qed.

Lemma find_next_available_slot_by_id fuel after_time max_days :
  find_next_available_slot db2 fuel self2 after_time max_days
  = find_next_available_slot db fuel self after_time max_days.
Proof. unfold find_next_available_slot. apply search_loop_by_id. Qed.

End StoredTimezone.

(** C10: the suggester evaluates every person in its own zone and never
    reads the timezone stored with a user: two runs whose user records
    (in the people set and in the user table) differ only in the stored
    timezone return the same suggestions and the same next slot. *)
Theorem suggester_ignores_stored_timezone :
  forall (db : Snapshot) (table2 users1 users2 : list User.t)
         (duration_minutes : Z) (timezone_str : string),
    Forall2 differ_only_in_timezone users1 users2 ->
    let db2 := with_users db table2 in
    let self1 :=
      SlotSuggester.__init__ db users1 duration_minutes timezone_str in
    let self2 :=
      SlotSuggester.__init__ db2 users2 duration_minutes timezone_str in
    (forall (preferred_date : Py.date) (num_suggestions days_to_search : Z),
        SlotSuggester.suggest_slots db2 self2 preferred_date num_suggestions
                                    days_to_search
        = SlotSuggester.suggest_slots db self1 preferred_date num_suggestions
                                      days_to_search)
    /\ (forall (fuel : nat) (after_time : Py.datetime) (max_days : Z),
           SlotSuggester.find_next_available_slot db2 fuel self2 after_time
                                                  max_days
           = SlotSuggester.find_next_available_slot db fuel self1 after_time
                                                    max_days).
Proof.
  intros db table2 users1 users2 minutes z Hrel db2 self1 self2.
  change self2 with (with_people self1 users2).
  split.
  - intros. apply suggest_slots_by_id. exact Hrel.
  - intros. apply find_next_available_slot_by_id. exact Hrel.
Qed.

Lemma suggester_ignores_stored_timezone_witness :
  let db := Scenario.office in
  let moved := [Scenario.alice_in_utc; Scenario.bob] in
  Forall2 differ_only_in_timezone [Scenario.alice; Scenario.bob] moved
  /\ SlotSuggester.suggest_slots
       (with_users db moved)
       (SlotSuggester.__init__ (with_users db moved) moved 30
                               "Africa/Nairobi")
       (Py.mk_date 2024 6 3) 5 7
     = SlotSuggester.suggest_slots
         db
         (SlotSuggester.__init__ db [Scenario.alice; Scenario.bob] 30
                                 "Africa/Nairobi")
         (Py.mk_date 2024 6 3) 5 7.
Proof.
  intros db moved.
  assert (Hrel : Forall2 differ_only_in_timezone
                         [Scenario.alice; Scenario.bob] moved)
    by (repeat constructor).
  split; [exact Hrel|].
  exact (proj1 (suggester_ignores_stored_timezone
                  db moved [Scenario.alice; Scenario.bob] moved 30
                  "Africa/Nairobi" Hrel)
               (Py.mk_date 2024 6 3) 5 7).
Defined.

(** ** Half-hour boundaries in the search for the next slot *)

Lemma half_hour_of_minute w :
  w mod 60000000 = 0 ->
  ((w mod 86400000000) / 60000000) mod 60 mod 30 = 0 ->
  w mod 1800000000 = 0.
Proof. intros. Z.to_euclidean_division_equations. lia. Qed.

Lemma rounded_on_half_hour d h m :
  (d * 86400000000
   + (h * 3600000000 + (((m / 30 + 1) * 30) mod 60) * 60000000))
    mod 1800000000 = 0.
Proof. Z.to_euclidean_division_equations. lia. Qed.

Lemma wall_replace_hour_minute x h m :
  Py.wall (Py.replace_hour_minute x h m)
  = Py.dt_date x * 86400000000
    + (h * 3600000000 + m * 60000000
       + (Py.wall x mod 86400000000) mod 60000000).
Proof. reflexivity. Qed.

(** The rounding step of the loop, on a start with zero seconds and
    microseconds, yields a start on a half hour. *)
Lemma rounding_on_half_hour cur :
  Py.wall cur mod 60000000 = 0 ->
  Py.wall
    (if negb (Py.minute cur mod 30 =? 0)
     then
       if 30 <=? Py.minute cur
       then Py.add (Py.replace_minute_second_microsecond
                      cur (((Py.minute cur / 30 + 1) * 30) mod 60))
                   (Py.hours 1)
       else Py.replace_minute_second_microsecond
              cur (((Py.minute cur / 30 + 1) * 30) mod 60)
     else cur) mod 1800000000 = 0.
Proof.
  intro Hcur.
  destruct (Py.minute cur mod 30 =? 0) eqn:Hm; cbn [negb].
  - apply Z.eqb_eq in Hm. apply half_hour_of_minute; assumption.
  - pose proof (rounded_on_half_hour (Py.dt_date cur) (Py.hour cur)
                                     (Py.minute cur)) as Hr.
    destruct (30 <=? Py.minute cur);
      unfold Py.add, Py.replace_minute_second_microsecond, Py.combine,
        Py.mk_time, Py.hours;
      cbn [Py.wall];
      change Py.us_per_day with 86400000000;
      change Py.us_per_hour with 3600000000;
      change Py.us_per_minute with 60000000;
      [|exact Hr].
    revert Hr.
    generalize (Py.dt_date cur * 86400000000 +
                (Py.hour cur * 3600000000 +
                 ((Py.minute cur / 30 + 1) * 30) mod 60 * 60000000)).
    intros w Hw. Z.to_euclidean_division_equations. lia.
Qed.

Section HalfHour.

Import SlotSuggester.

Variables (db : Snapshot) (self : SlotSuggester.t).
Hypothesis opens_at_eight : business_start self = Py.mk_time 8 0.

Lemma to_business_start_on_half_hour x :
  Py.wall x mod 60000000 = 0 ->
  Py.wall (Py.replace_hour_minute x (Py.time_hour (business_start self))
                                   (Py.time_minute (business_start self)))
    mod 1800000000 = 0.
Proof.
  intro H. rewrite wall_replace_hour_minute, opens_at_eight.
  change (Py.time_hour (Py.mk_time 8 0)) with 8.
  change (Py.time_minute (Py.mk_time 8 0)) with 0.
  Z.to_euclidean_division_equations. lia.
Qed.

(** Zero seconds and microseconds are kept by every step of the loop,
    and each candidate that reaches the check is on a half hour. *)
Lemma search_loop_on_half_hour end_search fuel :
  forall cur s,
    Py.wall cur mod 60000000 = 0 ->
    search_loop db fuel self cur end_search = Some (Some s) ->
    Py.wall (start_time s) mod 1800000000 = 0.
Proof.
  assert (Hstep : forall w, w mod 1800000000 = 0 -> w mod 60000000 = 0)
    by (intros; Z.to_euclidean_division_equations; lia).
  induction fuel as [|fuel IH]; intros cur s Hcur H;
    cbn [search_loop] in H; [discriminate|].
  destruct (Py.ltb cur end_search); [|discriminate].
  cbv zeta in H.
  pose proof (rounding_on_half_hour cur Hcur) as Hq.
  match type of H with
  | context [Py.astimezone ?c _] => set (cur' := c) in H, Hq
  end.
  clearbody cur'.
  match type of H with
  | match ?p with _ => _ end = _ =>
      assert (Hp : Py.wall (fst p) mod 1800000000 = 0);
      [|destruct p as [ct continue]]
  end.
  { destruct (Py.dt_time (Py.astimezone cur' (tz self))
              <? business_start self).
    - cbn [fst]. apply to_business_start_on_half_hour, Hstep, Hq.
    - destruct (business_end self
                <=? Py.dt_time (Py.astimezone cur' (tz self)));
        cbn [fst]; [|exact Hq].
      apply to_business_start_on_half_hour.
      unfold Py.add, Py.days. cbn [Py.wall].
      change Py.us_per_day with 86400000000.
      revert Hq. generalize (Py.wall cur'). intros.
      Z.to_euclidean_division_equations. lia. }
  cbn [fst] in Hp.
  destruct continue; [apply (IH _ _ (Hstep _ Hp) H)|].
  destruct (5 <=? Py.weekday ct).
  { apply IH in H; [exact H|].
    apply Hstep, to_business_start_on_half_hour.
    unfold Py.add, Py.days. cbn [Py.wall].
    change Py.us_per_day with 86400000000.
    revert Hp. generalize (Py.wall ct).
    generalize (if (7 - Py.weekday ct) mod 7 =? 0 then 7
                else (7 - Py.weekday ct) mod 7).
    intros. Z.to_euclidean_division_equations. lia. }
  destruct (_check_slot_for_all_users db self ct (Py.add ct (duration self)))
    as [ok un].
  destruct ok.
  - injection H as <-. exact Hp.
  - apply IH in H; [exact H|].
    unfold Py.add, Py.minutes. cbn [Py.wall].
    change Py.us_per_minute with 60000000.
    revert Hp. generalize (Py.wall ct). intros.
    Z.to_euclidean_division_equations. lia.
Qed.

End HalfHour.

(** X26: what does hold of the claim: from an [after_time] with zero
    seconds and microseconds, every slot [find_next_available_slot]
    returns starts on a 30-minute boundary. *)
Lemma next_slot_on_half_hour_from_a_whole_minute
      (db : Snapshot) (users : list User.t) (duration_minutes : Z)
      (timezone_str : string) (fuel : nat) (after_time : Py.datetime)
      (max_days : Z) (s : SlotSuggester.slot) :
  let self :=
    SlotSuggester.__init__ db users duration_minutes timezone_str in
  Py.time_below_minute (Py.dt_time after_time) = 0 ->
  SlotSuggester.find_next_available_slot db fuel self after_time max_days
  = Some (Some s) ->
  on_half_hour (SlotSuggester.start_time s).
Proof.
  intros self Hzero Hfound.
  unfold SlotSuggester.find_next_available_slot in Hfound.
  apply (search_loop_on_half_hour db self eq_refl) in Hfound.
  - unfold on_half_hour, Py.dt_time.
    change (Py.minutes 30) with 1800000000.
    change Py.us_per_day with 86400000000.
    revert Hfound. generalize (Py.wall (SlotSuggester.start_time s)).
    intros. Z.to_euclidean_division_equations. lia.
  - revert Hzero. unfold Py.time_below_minute, Py.dt_time.
    change Py.us_per_minute with 60000000.
    change Py.us_per_day with 86400000000.
    generalize (Py.wall after_time).
    intros. Z.to_euclidean_division_equations. lia.
Qed.

(** The search need not end.  With the suggester in Lima and
    [after_time] given in UTC, 08:30 UTC is 03:30 local, so the candidate
    is set back to 08:00 UTC (03:00 local), which is outside Alice's
    hours; the next candidate is 08:30 UTC again. *)
Lemma search_can_cycle :
  let db := Scenario.office in
  let self := SlotSuggester.__init__ db [Scenario.alice] 30 "America/Lima" in
  let after_time := Scenario.at_zone Scenario.utc_zone 2024 6 3 8 30 0 in
  forall fuel : nat,
    SlotSuggester.find_next_available_slot db fuel self after_time 14 = None.
Proof.
  intros db self after_time fuel.
  unfold SlotSuggester.find_next_available_slot.
  set (end_search := Py.add after_time (Py.days 14)).
  induction fuel as [|fuel IH]; [reflexivity|].
  cbn [SlotSuggester.search_loop].
  replace (Py.ltb after_time end_search) with true
    by (vm_compute; reflexivity).
  cbv zeta.
  replace (Py.minute after_time) with 30 by (vm_compute; reflexivity).
  change (negb (30 mod 30 =? 0)) with false. cbv iota.
  replace (Py.dt_time (Py.astimezone after_time (SlotSuggester.tz self))
           <? SlotSuggester.business_start self)
    with true by (vm_compute; reflexivity).
  cbv iota beta.
  set (ct := Py.replace_hour_minute _ _ _).
  replace (5 <=? Py.weekday ct) with false by (vm_compute; reflexivity).
  replace (SlotSuggester._check_slot_for_all_users
             db self ct (Py.add ct (SlotSuggester.duration self)))
    with (false, [Scenario.alice]) by (vm_compute; reflexivity).
  cbv iota beta.
  replace (Py.add ct (Py.minutes 30)) with after_time
    by (vm_compute; reflexivity).
  exact IH.
Qed.

(** C9: the search does not always start on a 30-minute boundary, and
    does not snap to 08:00 of the suggester's zone.

    First, a start whose minute is 0 or 30 is not rounded, whatever its
    seconds: from Monday 11:00:15 the slot returned starts at 11:00:15.

    Second, the snap to the start of business replaces the hour in the
    zone [after_time] came in: from 02:00 UTC (05:00 in Nairobi, before
    business hours) the candidate becomes 08:00 UTC, which is 11:00 in
    Nairobi, though 08:00 in Nairobi is free for everyone. *)
Theorem next_slot_is_not_always_on_the_half_hour :
  let db := Scenario.office in
  let self := SlotSuggester.__init__
                db [Scenario.alice; Scenario.bob] 30 "Africa/Nairobi" in
  (let after_time := Scenario.at_zone Scenario.nairobi 2024 6 3 11 0 15 in
   exists s,
     SlotSuggester.find_next_available_slot db 4 self after_time 14
     = Some (Some s)
     /\ SlotSuggester.start_time s = after_time
     /\ ~ on_half_hour (SlotSuggester.start_time s))
  /\ (let after_time := Scenario.at_zone Scenario.utc_zone 2024 6 3 2 0 0 in
      let t0800 := Scenario.at_zone Scenario.nairobi 2024 6 3 8 0 0 in
      exists s,
        SlotSuggester.find_next_available_slot db 4 self after_time 14
        = Some (Some s)
        /\ Py.dt_time (Py.astimezone after_time (SlotSuggester.tz self))
           = Py.mk_time 5 0
        /\ SlotSuggester.start_time s
           = Scenario.at_zone Scenario.utc_zone 2024 6 3 8 0 0
        /\ Py.dt_time (Py.astimezone (SlotSuggester.start_time s)
                                     (SlotSuggester.tz self))
           = Py.mk_time 11 0
        /\ fst (SlotSuggester._check_slot_for_all_users
                  db self t0800 (Py.add t0800 (SlotSuggester.duration self)))
           = true).
Proof.
  split.
  - eexists. split; [vm_compute; reflexivity|].
    split; [reflexivity|]. vm_compute. discriminate.
  - eexists. split; [vm_compute; reflexivity|].
    repeat split; vm_compute; reflexivity.
Qed.

(* ================================================================= *)
(** * Further properties of the code *)

(** ** More on the conflict checker *)

Lemma involves_spec (u : User.t) (m : Meeting.t) :
  String.eqb (Meeting.organizer m) (User.id u)
  || existsb (String.eqb (User.id u)) (Meeting.participants m) = true
  <-> involves u m.
Proof.
  unfold involves. rewrite orb_true_iff, String.eqb_eq, existsb_exists.
  split; (intros [H | H]; [now left | right]).
  - destruct H as [x [Hx Heq]]. apply String.eqb_eq in Heq. now subst.
  - exists (User.id u). split; [exact H | apply String.eqb_refl].
Qed.

Lemma live_spec (m : Meeting.t) :
  negb (Meeting.is_deleted m) && Meeting.status_counts (Meeting.status m)
  = true <-> live m.
Proof.
  unfold live. rewrite andb_true_iff, negb_true_iff.
  destruct (Meeting.status m); simpl; intuition congruence.
Qed.

Lemma overlapping_meetings_spec db self s e m :
  In m (ConflictDetector.overlapping_meetings db self s e)
  <-> In m (Meeting_objects db)
      /\ involves (ConflictDetector.user self) m
      /\ live m
      /\ overlaps (Meeting.start_time m) (Meeting.end_time m) s e.
Proof.
  unfold ConflictDetector.overlapping_meetings.
  rewrite filter_In, !andb_true_iff, <- involves_spec, <- live_spec,
    ltb_spec, gtb_spec, andb_true_iff.
  unfold overlaps. tauto.
Qed.

Lemma check_conflicts_In db self s e ex m :
  In m (ConflictDetector.check_conflicts db self s e ex)
  <-> In m (Meeting_objects db)
      /\ involves (ConflictDetector.user self) m
      /\ live m
      /\ overlaps (Meeting.start_time m) (Meeting.end_time m) s e
      /\ not_excluded ex m.
Proof.
  unfold ConflictDetector.check_conflicts, not_excluded.
  destruct ex as [i|].
  - destruct i as [|c i]; cbn [truthy_str].
    + rewrite overlapping_meetings_spec. tauto.
    + rewrite filter_In, overlapping_meetings_spec, negb_true_iff,
        String.eqb_neq.
      split; [intros [H Hne]|intros H]; intuition discriminate.
  - rewrite overlapping_meetings_spec. tauto.
Qed.

Lemma check_blocked_times_In db self s e b :
  In b (ConflictDetector.check_blocked_times db self s e)
  <-> In b (BlockedTime_objects db)
      /\ BlockedTime.user b = User.id (ConflictDetector.user self)
      /\ overlaps (BlockedTime.start_datetime b)
                  (BlockedTime.end_datetime b) s e.
Proof.
  unfold ConflictDetector.check_blocked_times.
  rewrite filter_In, !andb_true_iff, String.eqb_eq, ltb_spec, gtb_spec.
  unfold overlaps. tauto.
Qed.

Lemma has_conflicts_true db self s e ex :
  ConflictDetector.has_conflicts
    (ConflictDetector.get_all_conflicts db self s e ex) = true
  <-> (exists m, In m (ConflictDetector.check_conflicts db self s e ex))
      \/ (exists b, In b (ConflictDetector.check_blocked_times db self s e)).
Proof.
  cbn [ConflictDetector.get_all_conflicts ConflictDetector.has_conflicts].
  rewrite orb_true_iff, !truthy_list_true.
  split; (intros [H | H]; [left | right]).
  - destruct (ConflictDetector.check_conflicts db self s e ex) as [|m l];
      [contradiction | exists m; now left].
  - destruct (ConflictDetector.check_blocked_times db self s e) as [|b l];
      [contradiction | exists b; now left].
  - destruct H as [m Hm]. intro Hnil. rewrite Hnil in Hm. exact Hm.
  - destruct H as [b Hb]. intro Hnil. rewrite Hnil in Hb. exact Hb.
Qed.

(** X1: the two queries of the detector report exactly what overlaps.
    [check_conflicts] lists the rows of the meeting table in which the
    person takes part (as organizer or participant), that are not
    soft-deleted, are scheduled or in progress, strictly overlap the
    window and are not the excluded meeting (an empty exclusion id
    excludes nothing); [check_blocked_times] lists the person's own
    blocked times that strictly overlap.  Cancelled, completed and deleted
    meetings and other users' records never appear. *)
Theorem conflict_queries_report_exactly :
  forall (db : Snapshot) (self : ConflictDetector.t)
         (start_time end_time : Py.datetime)
         (exclude_meeting_id : option uuid),
    (forall m : Meeting.t,
        In m (ConflictDetector.check_conflicts db self start_time end_time
                                               exclude_meeting_id)
        <-> In m (Meeting_objects db)
            /\ involves (ConflictDetector.user self) m
            /\ live m
            /\ overlaps (Meeting.start_time m) (Meeting.end_time m)
                        start_time end_time
            /\ not_excluded exclude_meeting_id m)
    /\ (forall b : BlockedTime.t,
           In b (ConflictDetector.check_blocked_times db self start_time
                                                      end_time)
           <-> In b (BlockedTime_objects db)
               /\ BlockedTime.user b = User.id (ConflictDetector.user self)
               /\ overlaps (BlockedTime.start_datetime b)
                           (BlockedTime.end_datetime b) start_time end_time).
Proof.
  intros db self s e ex. split.
  - intro m. apply check_conflicts_In.
  - intro b. apply check_blocked_times_In.
Qed.

Lemma overlaps_widen a_start a_end s e s' e' :
  Py.utc s' <= Py.utc s -> Py.utc e <= Py.utc e' ->
  overlaps a_start a_end s e -> overlaps a_start a_end s' e'.
Proof. unfold overlaps. lia. Qed.

(** X2: widening the window loses no conflict.  When the window
    [start', end'] contains [start, end], every meeting and blocked time
    reported for the smaller window is reported for the larger, and a
    report with conflicts stays one with conflicts. *)
Theorem widening_keeps_conflicts :
  forall (db : Snapshot) (self : ConflictDetector.t)
         (start_time end_time start_time' end_time' : Py.datetime)
         (exclude_meeting_id : option uuid),
    Py.utc start_time' <= Py.utc start_time ->
    Py.utc end_time <= Py.utc end_time' ->
    incl (ConflictDetector.check_conflicts db self start_time end_time
                                           exclude_meeting_id)
         (ConflictDetector.check_conflicts db self start_time' end_time'
                                           exclude_meeting_id)
    /\ incl (ConflictDetector.check_blocked_times db self start_time
                                                  end_time)
            (ConflictDetector.check_blocked_times db self start_time'
                                                  end_time')
    /\ (ConflictDetector.has_conflicts
          (ConflictDetector.get_all_conflicts db self start_time end_time
                                              exclude_meeting_id) = true ->
        ConflictDetector.has_conflicts
          (ConflictDetector.get_all_conflicts db self start_time' end_time'
                                              exclude_meeting_id) = true).
Proof.
  intros db self s e s' e' ex Hs He.
  assert (Hm : incl (ConflictDetector.check_conflicts db self s e ex)
                    (ConflictDetector.check_conflicts db self s' e' ex)).
  { intros m Hin. apply check_conflicts_In in Hin. apply check_conflicts_In.
    destruct Hin as [H1 [H2 [H3 [H4 H5]]]].
    pose proof (overlaps_widen _ _ _ _ _ _ Hs He H4). tauto. }
  assert (Hb : incl (ConflictDetector.check_blocked_times db self s e)
                    (ConflictDetector.check_blocked_times db self s' e')).
  { intros b Hin. apply check_blocked_times_In in Hin.
    apply check_blocked_times_In.
    destruct Hin as [H1 [H2 H3]].
    pose proof (overlaps_widen _ _ _ _ _ _ Hs He H3). tauto. }
  split; [exact Hm|]. split; [exact Hb|].
  rewrite !has_conflicts_true.
  intros [[m Hin] | [b Hin]]; [left; exists m | right; exists b]; auto.
Qed.

(** X3: a live meeting with a positive length conflicts with its own
    window for everyone who takes part in it, and passing its id as
    [exclude_meeting_id] removes it from the report: the re-check of a
    meeting being edited does not trip over the meeting itself. *)
Theorem meeting_conflicts_with_itself_unless_excluded :
  forall (db : Snapshot) (self : ConflictDetector.t) (m : Meeting.t),
    In m (Meeting_objects db) ->
    involves (ConflictDetector.user self) m ->
    live m ->
    Py.utc (Meeting.start_time m) < Py.utc (Meeting.end_time m) ->
    Meeting.id m <> EmptyString ->
    In m (ConflictDetector.check_conflicts
            db self (Meeting.start_time m) (Meeting.end_time m) None)
    /\ ConflictDetector.has_conflicts
         (ConflictDetector.get_all_conflicts
            db self (Meeting.start_time m) (Meeting.end_time m) None) = true
    /\ ~ In m (ConflictDetector.check_conflicts
                 db self (Meeting.start_time m) (Meeting.end_time m)
                 (Some (Meeting.id m))).
Proof.
  intros db self m Hrow Hpart Hlive Hlen Hid.
  assert (Hin : In m (ConflictDetector.check_conflicts
                        db self (Meeting.start_time m) (Meeting.end_time m)
                        None)).
  { apply check_conflicts_In. unfold overlaps, not_excluded. tauto. }
  split; [exact Hin|]. split.
  - apply has_conflicts_true. left. exists m. exact Hin.
  - intro H. apply check_conflicts_In in H.
    destruct H as [_ [_ [_ [_ [H | H]]]]]; [exact (Hid H) | exact (H eq_refl)].
Qed.


(** ** More on the availability evaluator *)

Lemma within_availability_declared db self day s e :
  ConflictDetector.live_availabilities db self day <> [] ->
  (ConflictDetector._is_time_within_availability db self day s e = true
   <-> exists a,
         In a (ConflictDetector.live_availabilities db self day)
         /\ contained_in s e a).
Proof.
  intro Hsome. unfold ConflictDetector._is_time_within_availability.
  destruct (ConflictDetector.live_availabilities db self day) as [|a0 l]
    eqn:Hlive; [contradiction|].
  cbn [truthy_list negb]. rewrite existsb_exists. unfold contained_in.
  split; intros [a [Hin H]]; exists a; (split; [exact Hin|]).
  - apply andb_true_iff in H. rewrite !Z.leb_le in H. exact H.
  - apply andb_true_iff. rewrite !Z.leb_le. exact H.
Qed.

Lemma within_availability_default db self day s e :
  ConflictDetector.live_availabilities db self day = [] ->
  ConflictDetector._is_time_within_availability db self day s e
  = (Py.mk_time 8 0 <=? s) && (e <=? Py.mk_time 18 0).
Proof.
  intro Hnone. unfold ConflictDetector._is_time_within_availability.
  rewrite Hnone. reflexivity.
Qed.

(** X4: a time range inside an accepted range is accepted: narrowing a
    request never takes it out of the availability, whether the person
    has declared windows or relies on the default hours. *)
Theorem narrower_range_stays_within_availability :
  forall (db : Snapshot) (self : ConflictDetector.t) (day_of_week : Z)
         (start_time end_time start_time' end_time' : Py.time),
    ConflictDetector._is_time_within_availability
      db self day_of_week start_time end_time = true ->
    start_time <= start_time' ->
    end_time' <= end_time ->
    ConflictDetector._is_time_within_availability
      db self day_of_week start_time' end_time' = true.
Proof.
  intros db self day s e s' e' H Hs He.
  destruct (ConflictDetector.live_availabilities db self day) as [|a0 l]
    eqn:Hlive.
  - rewrite within_availability_default in * by exact Hlive.
    apply andb_true_iff in H. rewrite !Z.leb_le in H.
    apply andb_true_iff. rewrite !Z.leb_le. lia.
  - assert (Hsome : ConflictDetector.live_availabilities db self day <> [])
      by (rewrite Hlive; discriminate).
    apply (within_availability_declared _ _ _ _ _ Hsome) in H.
    apply (within_availability_declared _ _ _ _ _ Hsome).
    destruct H as [a [Hin [H1 H2]]]. exists a.
    unfold contained_in. split; [exact Hin | lia].
Qed.

(** X5: declared windows replace the default hours.  When the person has
    a live window for the weekday, a time range is within availability
    exactly when one live window contains it whole (08:00 to 18:00 plays no
    part, and two windows that only together cover the range do not
    count); in particular a range equal to a live window is accepted. *)
Theorem declared_windows_replace_the_default :
  forall (db : Snapshot) (self : ConflictDetector.t) (day_of_week : Z),
    (forall a : Availability.t,
        In a (ConflictDetector.live_availabilities db self day_of_week) ->
        ConflictDetector._is_time_within_availability
          db self day_of_week (Availability.start_time a)
          (Availability.end_time a) = true)
    /\ (ConflictDetector.live_availabilities db self day_of_week <> [] ->
        forall start_time end_time : Py.time,
          ConflictDetector._is_time_within_availability
            db self day_of_week start_time end_time = true
          <-> exists a,
                In a (ConflictDetector.live_availabilities
                        db self day_of_week)
                /\ contained_in start_time end_time a).
Proof.
  intros db self day. split.
  - intros a Hin.
    assert (Hsome : ConflictDetector.live_availabilities db self day <> [])
      by (intro Hnil; rewrite Hnil in Hin; exact Hin).
    apply (within_availability_declared _ _ _ _ _ Hsome).
    exists a. unfold contained_in. split; [exact Hin | lia].
  - intros Hsome s e. apply within_availability_declared. exact Hsome.
Qed.

Lemma live_availabilities_In db self day a :
  In a (ConflictDetector.live_availabilities db self day)
  <-> In a (Availability_objects db)
      /\ Availability.user a = User.id (ConflictDetector.user self)
      /\ Availability.day_of_week a = day
      /\ ~ dormant db a.
Proof.
  unfold ConflictDetector.live_availabilities, dormant.
  rewrite filter_In, !andb_true_iff, String.eqb_eq, Z.eqb_eq.
  destruct (Availability.is_active a),
    (Availability.effective_from a) as [from|],
    (Availability.effective_until a) as [until|];
    rewrite ?Z.leb_le;
    (split; [intros [H1 [[[[H2 H3] H4] H5] H6]];
             repeat split; try assumption;
             intros [Hd | [[x [Hx Hlt]] | [x [Hx Hlt]]]];
             try discriminate; try (injection Hx as <-; lia)
            | intros [H1 [H2 [H3 H4]]];
              repeat split; try assumption; try reflexivity;
              try (apply Z.le_ngt; intro Hlt; apply H4; eauto);
              try (exfalso; apply H4; now left)]).
Qed.

(** X6: availability records that are switched off, not yet effective or
    expired count for nothing.  When every record of the person for the
    weekday is dormant, the time range is judged against the default
    hours, as for a person who declared nothing. *)
Theorem dormant_windows_count_for_nothing :
  forall (db : Snapshot) (self : ConflictDetector.t) (day_of_week : Z)
         (start_time end_time : Py.time),
    (forall a : Availability.t,
        In a (Availability_objects db) ->
        Availability.user a = User.id (ConflictDetector.user self) ->
        Availability.day_of_week a = day_of_week ->
        dormant db a) ->
    (ConflictDetector._is_time_within_availability
       db self day_of_week start_time end_time = true
     <-> Py.mk_time 8 0 <= start_time /\ end_time <= Py.mk_time 18 0).
Proof.
  intros db self day s e Hdormant.
  assert (Hnone : ConflictDetector.live_availabilities db self day = []).
  { destruct (ConflictDetector.live_availabilities db self day) as [|a l]
      eqn:Hlive; [reflexivity|].
    assert (Hin : In a (ConflictDetector.live_availabilities db self day))
      by (rewrite Hlive; now left).
    apply live_availabilities_In in Hin.
    destruct Hin as [H1 [H2 [H3 H4]]].
    exfalso. apply H4. apply Hdormant; assumption. }
  rewrite (within_availability_default _ _ _ _ _ Hnone).
  rewrite andb_true_iff, !Z.leb_le. reflexivity.
Qed.

(** The loop over the days of a window answers true exactly when every
    day from [d] to the last local date is available. *)
Lemma days_loop_true db self ls le (n : nat) :
  forall d : Py.date,
    n = Z.to_nat (Py.dt_date le - d + 1) ->
    (ConflictDetector.days_loop db n self d ls le = true
     <-> forall d', d <= d' <= Py.dt_date le ->
                    ConflictDetector._is_day_available db self d' ls le
                    = true).
Proof.
  induction n as [|n IH]; intros d Hn; cbn [ConflictDetector.days_loop].
  - split; [intros _ d' Hd'; lia | reflexivity].
  - assert (Hle : d <= Py.dt_date le) by lia.
    apply Z.leb_le in Hle. rewrite Hle. apply Z.leb_le in Hle.
    destruct (ConflictDetector._is_day_available db self d ls le) eqn:Hd;
      cbn [negb].
    + rewrite (IH (d + 1)) by lia.
      split; intros H d' Hd'.
      * destruct (Z.eq_dec d' d) as [-> | Hne]; [exact Hd | apply H; lia].
      * apply H. lia.
    + split; [discriminate|]. intro H. rewrite <- Hd. apply H. lia.
Qed.

(** X7: a window that spans several local days is within availability
    exactly when every local date from its first to its last passes the
    day test, the first day from the start time to 23:59, the last from
    00:00 to the end time and the days between from 00:00 to 23:59. *)
Theorem multi_day_window_needs_every_day :
  forall (db : Snapshot) (self : ConflictDetector.t)
         (start_time end_time : Py.datetime),
    let local_start := Py.astimezone start_time (ConflictDetector.tz self) in
    let local_end := Py.astimezone end_time (ConflictDetector.tz self) in
    Py.dt_date local_start < Py.dt_date local_end ->
    (ConflictDetector.check_availability_window db self start_time end_time
     = true
     <-> forall d : Py.date,
           Py.dt_date local_start <= d <= Py.dt_date local_end ->
           ConflictDetector._is_day_available db self d local_start local_end
           = true).
Proof.
  intros db self s e ls le Hspan.
  unfold ConflictDetector.check_availability_window.
  fold ls le.
  assert (Hne : (Py.dt_date ls =? Py.dt_date le) = false)
    by (apply Z.eqb_neq; lia).
  rewrite Hne. cbn [negb].
  apply days_loop_true. reflexivity.
Qed.

Lemma day_on_default_hours_fails db self d ls le :
  Py.dt_date ls < Py.dt_date le ->
  Py.dt_date ls <= d <= Py.dt_date le ->
  ConflictDetector.live_availabilities db self (Py.date_weekday d) = [] ->
  ConflictDetector._is_day_available db self d ls le = false.
Proof.
  intros Hspan Hd Hnone. unfold ConflictDetector._is_day_available.
  rewrite (within_availability_default _ _ _ _ _ Hnone).
  destruct (d =? Py.dt_date ls) eqn:Hfirst.
  - apply Z.eqb_eq in Hfirst.
    assert (Hlast : (d =? Py.dt_date le) = false) by (apply Z.eqb_neq; lia).
    rewrite Hlast. apply andb_false_iff. right. reflexivity.
  - apply andb_false_iff. left. reflexivity.
Qed.

(** X8: the default hours never carry a window over midnight.  When the
    window spans several local days and the person has no live window on
    the weekday of one of its dates, the window is outside availability,
    whatever its times are. *)
Theorem multi_day_window_fails_on_default_hours :
  forall (db : Snapshot) (self : ConflictDetector.t)
         (start_time end_time : Py.datetime) (d : Py.date),
    let local_start := Py.astimezone start_time (ConflictDetector.tz self) in
    let local_end := Py.astimezone end_time (ConflictDetector.tz self) in
    Py.dt_date local_start < Py.dt_date local_end ->
    Py.dt_date local_start <= d <= Py.dt_date local_end ->
    ConflictDetector.live_availabilities db self (Py.date_weekday d) = [] ->
    ConflictDetector.check_availability_window db self start_time end_time
    = false.
Proof.
  intros db self s e d ls le Hspan Hd Hnone.
  destruct (ConflictDetector.check_availability_window db self s e) eqn:Hw;
    [|reflexivity].
  unfold ConflictDetector.check_availability_window in Hw.
  fold ls le in Hw.
  assert (Hne : (Py.dt_date ls =? Py.dt_date le) = false)
    by (apply Z.eqb_neq; lia).
  rewrite Hne in Hw. cbn [negb] in Hw.
  rewrite (days_loop_true db self ls le _ (Py.dt_date ls) eq_refl) in Hw.
  pose proof (Hw d Hd) as Hday.
  pose proof (day_on_default_hours_fails db self d ls le Hspan Hd Hnone).
  congruence.
Qed.


(** ** More on the slot suggester *)

Lemma grid_slot_S self day cur k :
  grid_slot self day cur (S k)
  = grid_slot self day (Py.add cur (Py.minutes 30)) k.
Proof. unfold grid_slot. rewrite half_hours_after_S. reflexivity. Qed.

Lemma grid_slot_0 self day cur :
  grid_slot self day cur 0
  = SlotSuggester.day_slot self day cur
                           (Py.add cur (SlotSuggester.duration self)).
Proof. unfold grid_slot. rewrite half_hours_after_0. reflexivity. Qed.

Lemma grid_free_S db self cur k :
  grid_free db self cur (S k)
  = grid_free db self (Py.add cur (Py.minutes 30)) k.
Proof. unfold grid_free. rewrite half_hours_after_S. reflexivity. Qed.

(** The day loop as a filter over the grid: it appends, in order, the
    candidates that pass the check. *)
Lemma slots_loop_grid db self day end_time fuel :
  forall cur acc,
    SlotSuggester.slots_loop db fuel self day cur end_time acc
    = acc ++ map (grid_slot self day cur)
                 (filter (grid_free db self cur)
                         (seq 0 (Nat.min fuel
                                         (SlotSuggester.slots_fuel
                                            self cur end_time)))).
Proof.
  induction fuel as [|fuel IH]; intros cur acc;
    cbn [SlotSuggester.slots_loop].
  - cbn. now rewrite app_nil_r.
  - destruct (Py.leb (Py.add cur (SlotSuggester.duration self)) end_time)
      eqn:Hfit.
    + rewrite (slots_fuel_step _ _ _ Hfit).
      cbn [Nat.min seq]. rewrite <- seq_shift.
      cbn [filter]. rewrite filter_map_swap.
      assert (H0 : grid_free db self cur 0
                   = fst (SlotSuggester._check_slot_for_all_users
                            db self cur
                            (Py.add cur (SlotSuggester.duration self)))).
      { unfold grid_free. now rewrite half_hours_after_0. }
      destruct (SlotSuggester._check_slot_for_all_users
                  db self cur (Py.add cur (SlotSuggester.duration self)))
        as [ok un].
      cbn [fst] in H0. rewrite H0, IH.
      rewrite (filter_ext _ _ (grid_free_S db self cur)).
      destruct ok; cbn [map]; rewrite map_map;
        rewrite (map_ext _ _ (grid_slot_S self day cur)).
      * rewrite <- app_assoc. cbn [app].
        rewrite grid_slot_0. reflexivity.
      * reflexivity.
    + rewrite (slots_fuel_done _ _ _ Hfit), Nat.min_0_r. cbn.
      now rewrite app_nil_r.
Qed.

(** X9: the slots of a day are exactly the free positions of the
    half-hour grid, in order: the candidates [08:00 + k * 30 min] for the
    positions [k] that still fit before 18:00, kept when every user passes
    the check.  No free position is skipped and none comes twice. *)
Theorem day_slots_are_the_free_grid_positions :
  forall (db : Snapshot) (self : SlotSuggester.t) (day : Py.date),
    SlotSuggester._get_available_slots_for_day db self day
    = map (grid_slot self day (day_first self day))
          (filter (grid_free db self (day_first self day))
                  (seq 0 (day_positions self day))).
Proof.
  intros db self day.
  unfold SlotSuggester._get_available_slots_for_day.
  rewrite slots_loop_grid, Nat.min_id. reflexivity.
Qed.

Lemma firstn_app_full {A : Type} (n : nat) (l x : list A) :
  (n <= List.length l)%nat -> firstn n (l ++ x) = firstn n l.
Proof.
  intro H. rewrite firstn_app.
  replace (n - List.length l)%nat with 0%nat by lia.
  cbn. now rewrite app_nil_r.
Qed.

(** The date loop, cut to the number wanted, is the cut of all the day
    lists of the weekdays it could scan: stopping early loses nothing. *)
Lemma dates_loop_firstn db self end_date num fuel :
  forall cur acc,
    0 <= num ->
    Z.of_nat fuel = Z.max 0 (end_date - cur + 1) ->
    firstn (Z.to_nat num)
           (SlotSuggester.dates_loop db fuel self cur end_date num acc)
    = firstn (Z.to_nat num)
             (acc ++ flat_map
                       (SlotSuggester._get_available_slots_for_day db self)
                       (filter (fun d => Py.date_weekday d <? 5)
                               (map (fun i => cur + Z.of_nat i)
                                    (seq 0 fuel)))).
Proof.
  induction fuel as [|fuel IH]; intros cur acc Hnum Hfuel;
    cbn [SlotSuggester.dates_loop].
  - cbn. now rewrite app_nil_r.
  - assert (Hle : (cur <=? end_date) = true) by (apply Z.leb_le; lia).
    rewrite Hle. cbn [andb].
    destruct (Z.of_nat (List.length acc) <? num) eqn:Hlen.
    + rewrite IH by lia.
      cbn [seq map]. rewrite <- seq_shift, map_map.
      replace (cur + Z.of_nat 0) with cur by lia.
      rewrite (map_ext (fun x => cur + Z.of_nat (S x))
                       (fun i => cur + 1 + Z.of_nat i))
        by (intro; lia).
      cbn [filter].
      destruct (Py.date_weekday cur <? 5); cbn [flat_map].
      * now rewrite <- app_assoc.
      * reflexivity.
    + apply Z.ltb_ge in Hlen.
      rewrite firstn_app_full by lia. reflexivity.
Qed.

(** X10: [suggest_slots] returns the first [num_suggestions] free slots of
    the horizon: the day lists of the scanned dates that are not on a
    weekend, in date order, cut to [num_suggestions].  The early stop of
    the scan loses nothing, so no earlier free slot is passed over. *)
Theorem suggestions_are_the_first_free_slots :
  forall (db : Snapshot) (self : SlotSuggester.t) (preferred_date : Py.date)
         (num_suggestions days_to_search : Z),
    0 <= num_suggestions ->
    SlotSuggester.suggest_slots db self preferred_date num_suggestions
                                days_to_search
    = firstn (Z.to_nat num_suggestions)
             (flat_map (SlotSuggester._get_available_slots_for_day db self)
                       (scanned_weekdays preferred_date days_to_search)).
Proof.
  intros db self preferred num horizon Hnum.
  unfold SlotSuggester.suggest_slots, Py.slice_to.
  assert (H0 : (0 <=? num) = true) by (apply Z.leb_le; exact Hnum).
  rewrite H0, dates_loop_firstn by lia.
  reflexivity.
Qed.

(** X11: [suggest_slots] never returns more than [num_suggestions] slots,
    and returns none when [num_suggestions] is zero or negative or when
    [days_to_search] is negative. *)
Theorem suggestions_are_bounded :
  forall (db : Snapshot) (self : SlotSuggester.t) (preferred_date : Py.date)
         (num_suggestions days_to_search : Z),
    (0 <= num_suggestions ->
     Z.of_nat (List.length
                 (SlotSuggester.suggest_slots db self preferred_date
                                              num_suggestions days_to_search))
     <= num_suggestions)
    /\ (num_suggestions <= 0 \/ days_to_search < 0 ->
        SlotSuggester.suggest_slots db self preferred_date num_suggestions
                                    days_to_search = []).
Proof.
  intros db self preferred num horizon. split.
  - intro Hnum. unfold SlotSuggester.suggest_slots.
    apply slice_to_length. exact Hnum.
  - intros [Hnum | Hdays]; unfold SlotSuggester.suggest_slots.
    + destruct (Z.to_nat (horizon + 1)) as [|fuel];
        cbn [SlotSuggester.dates_loop].
      * unfold Py.slice_to. destruct (0 <=? num); apply firstn_nil.
      * assert (Hlen : (Z.of_nat (@List.length SlotSuggester.slot []) <? num)
                       = false) by (apply Z.ltb_ge; cbn; lia).
        rewrite Hlen, andb_false_r.
        unfold Py.slice_to. destruct (0 <=? num); apply firstn_nil.
    + replace (Z.to_nat (horizon + 1)) with 0%nat by lia.
      cbn [SlotSuggester.dates_loop].
      unfold Py.slice_to. destruct (0 <=? num); apply firstn_nil.
Qed.

Lemma filter_length_bound {A : Type} (f : A -> bool) (l : list A) :
  (List.length (filter f l) <= List.length l)%nat.
Proof.
  induction l as [|a l IH]; cbn; [lia|].
  destruct (f a); cbn; lia.
Qed.

(** In a zone that is steady through business hours a day has
    [(600 - m) / 30 + 1] grid positions for meetings of [m] minutes. *)
Lemma day_positions_of_minutes db users minutes z day :
  let self := SlotSuggester.__init__ db users minutes z in
  steady_through_business_hours (SlotSuggester.tz self) ->
  day_positions self day = Z.to_nat ((600 - minutes) / 30 + 1).
Proof.
  intros self Hsteady.
  unfold day_positions, SlotSuggester.slots_fuel, day_first, day_last,
    Py.utc, Py.localize.
  cbn [Py.wall Py.utcoffset SlotSuggester.business_start
       SlotSuggester.business_end SlotSuggester.duration self
       SlotSuggester.__init__].
  rewrite <- (Hsteady day). f_equal.
  unfold Py.combine, Py.minutes.
  change (Py.mk_time 8 0) with 28800000000.
  change (Py.mk_time 18 0) with 64800000000.
  change Py.us_per_minute with 60000000.
  change (30 * 60000000) with 1800000000.
  generalize (Py.localize_offset (SlotSuggester.tz self)
                                 (day * Py.us_per_day + 28800000000)).
  generalize (day * Py.us_per_day). intros w off.
  Z.to_euclidean_division_equations. lia.
Qed.

(** X12: a meeting longer than the business day gets no suggestion.  For
    a suggester of more than 600 minutes, in a zone that is steady through
    business hours, [suggest_slots] returns the empty list for every
    date, count and horizon. *)
Theorem too_long_meetings_get_no_suggestion :
  forall (db : Snapshot) (users : list User.t) (duration_minutes : Z)
         (timezone_str : string) (preferred_date : Py.date)
         (num_suggestions days_to_search : Z),
    let self :=
      SlotSuggester.__init__ db users duration_minutes timezone_str in
    600 < duration_minutes ->
    steady_through_business_hours (SlotSuggester.tz self) ->
    SlotSuggester.suggest_slots db self preferred_date num_suggestions
                                days_to_search = [].
Proof.
  intros db users minutes z preferred num horizon self Hlong Hsteady.
  destruct (SlotSuggester.suggest_slots db self preferred num horizon)
    as [|s l] eqn:Hall; [reflexivity|].
  assert (Hin : In s (SlotSuggester.suggest_slots db self preferred num
                                                  horizon))
    by (rewrite Hall; now left).
  unfold SlotSuggester.suggest_slots in Hin.
  apply slice_to_incl, dates_loop_In in Hin.
  destruct Hin as [[] | [d [_ [_ Hin]]]].
  unfold SlotSuggester._get_available_slots_for_day in Hin.
  rewrite slots_loop_grid, Nat.min_id in Hin.
  change (SlotSuggester.slots_fuel
            self
            (Py.localize (SlotSuggester.tz self)
                         (Py.combine d (SlotSuggester.business_start self)))
            (Py.localize (SlotSuggester.tz self)
                         (Py.combine d (SlotSuggester.business_end self))))
    with (day_positions self d) in Hin.
  subst self.
  rewrite (day_positions_of_minutes db users minutes z d Hsteady) in Hin.
  replace (Z.to_nat ((600 - minutes) / 30 + 1)) with 0%nat in Hin.
  - destruct Hin.
  - assert ((600 - minutes) / 30 < 0)
      by (apply Z.div_lt_upper_bound; lia).
    lia.
Qed.

(** X13: a day offers a bounded number of slots.  For a suggester of [m]
    minutes, [m] between 0 and 600, in a zone that is steady through
    business hours, a day yields at most [(600 - m) / 30 + 1] slots (20
    for the default half hour), and exactly that many when the people set
    is empty: then every grid position qualifies. *)
Theorem day_offers_a_bounded_number_of_slots :
  forall (db : Snapshot) (users : list User.t) (duration_minutes : Z)
         (timezone_str : string) (day : Py.date),
    let self :=
      SlotSuggester.__init__ db users duration_minutes timezone_str in
    0 <= duration_minutes <= 600 ->
    steady_through_business_hours (SlotSuggester.tz self) ->
    Z.of_nat (List.length
                (SlotSuggester._get_available_slots_for_day db self day))
    <= (600 - duration_minutes) / 30 + 1
    /\ (users = [] ->
        Z.of_nat (List.length
                    (SlotSuggester._get_available_slots_for_day db self day))
        = (600 - duration_minutes) / 30 + 1).
Proof.
  intros db users minutes z day self Hm Hsteady.
  unfold SlotSuggester._get_available_slots_for_day.
  rewrite slots_loop_grid, Nat.min_id.
  change (SlotSuggester.slots_fuel
            self
            (Py.localize (SlotSuggester.tz self)
                         (Py.combine day (SlotSuggester.business_start self)))
            (Py.localize (SlotSuggester.tz self)
                         (Py.combine day (SlotSuggester.business_end self))))
    with (day_positions self day).
  subst self.
  rewrite (day_positions_of_minutes db users minutes z day Hsteady).
  cbn [app]. rewrite length_map.
  assert (Hpos : 0 <= (600 - minutes) / 30) by (apply Z.div_pos; lia).
  split.
  - match goal with |- Z.of_nat (List.length (filter ?f ?l)) <= _ =>
      pose proof (filter_length_bound f l) as Hb end.
    rewrite length_seq in Hb. lia.
  - intros ->.
    rewrite (filter_ext _ (fun _ => true)) by reflexivity.
    rewrite filter_true, length_seq. lia.
Qed.

(** The candidate [find_next_available_slot] returns passed the weekend
    test. *)
Lemma search_loop_found_on_weekday db self end_search fuel :
  forall cur s,
    SlotSuggester.search_loop db fuel self cur end_search = Some (Some s) ->
    exists t,
      s = SlotSuggester.next_slot self t
                                  (Py.add t (SlotSuggester.duration self))
      /\ Py.weekday t < 5.
Proof.
  induction fuel as [|fuel IH]; intros cur s H;
    cbn [SlotSuggester.search_loop] in H; [discriminate|].
  destruct (Py.ltb cur end_search); [|discriminate].
  cbv zeta in H.
  match type of H with
  | match ?p with _ => _ end = _ => destruct p as [ct continue]
  end.
  destruct continue; [apply (IH _ _ H)|].
  destruct (5 <=? Py.weekday ct) eqn:Hwd; [apply (IH _ _ H)|].
  destruct (SlotSuggester._check_slot_for_all_users
              db self ct (Py.add ct (SlotSuggester.duration self)))
    as [ok un].
  destruct ok; [|apply (IH _ _ H)].
  injection H as <-. exists ct. split; [reflexivity|].
  apply Z.leb_gt. exact Hwd.
Qed.

(** X14: the slot [find_next_available_slot] returns never starts on a
    Saturday or Sunday (by the calendar of the zone [after_time] is given
    in) and lasts exactly the duration of the suggester. *)
Theorem next_slot_is_on_a_weekday :
  forall (db : Snapshot) (self : SlotSuggester.t) (fuel : nat)
         (after_time : Py.datetime) (max_days : Z) (s : SlotSuggester.slot),
    SlotSuggester.find_next_available_slot db fuel self after_time max_days
    = Some (Some s) ->
    0 <= Py.weekday (SlotSuggester.start_time s) < 5
    /\ SlotSuggester.end_time s
       = Py.add (SlotSuggester.start_time s) (SlotSuggester.duration self)
    /\ SlotSuggester.duration_minutes s
       = SlotSuggester.duration_in_minutes self.
Proof.
  intros db self fuel after max_days s H.
  apply search_loop_found_on_weekday in H.
  destruct H as [t [-> Hwd]]. cbn. repeat split; try assumption.
  unfold Py.weekday, Py.date_weekday. apply Z.mod_pos_bound. lia.
Qed.

(** X15: an empty horizon gives no slot.  With [max_days] zero or
    negative the search returns Python's [None] at once, whatever the
    people, the duration and [after_time]. *)
Theorem empty_search_horizon_finds_nothing :
  forall (db : Snapshot) (self : SlotSuggester.t) (fuel : nat)
         (after_time : Py.datetime) (max_days : Z),
    max_days <= 0 ->
    SlotSuggester.find_next_available_slot db (S fuel) self after_time
                                           max_days = Some None.
Proof.
  intros db self fuel after max_days Hmax.
  unfold SlotSuggester.find_next_available_slot.
  cbn [SlotSuggester.search_loop].
  assert (Hlt : Py.ltb after (Py.add after (Py.days max_days)) = false).
  { unfold Py.ltb. rewrite utc_add. apply Z.ltb_ge.
    unfold Py.days. change Py.us_per_day with 86400000000. lia. }
  rewrite Hlt. reflexivity.
Qed.

(** X16: an instant that is itself a free slot is returned as it is.
    When [after_time] has minute 0 or 30, lies within business hours in
    the zone of the suggester, is on a weekday, the horizon is not empty
    and every user is free from [after_time] for the duration, the search
    returns the slot that starts at [after_time]. *)
Theorem free_instant_is_its_own_next_slot :
  forall (db : Snapshot) (self : SlotSuggester.t) (fuel : nat)
         (after_time : Py.datetime) (max_days : Z),
    0 < max_days ->
    Py.minute after_time mod 30 = 0 ->
    SlotSuggester.business_start self
    <= Py.dt_time (Py.astimezone after_time (SlotSuggester.tz self))
    < SlotSuggester.business_end self ->
    Py.weekday after_time < 5 ->
    fst (SlotSuggester._check_slot_for_all_users
           db self after_time
           (Py.add after_time (SlotSuggester.duration self))) = true ->
    SlotSuggester.find_next_available_slot db (S fuel) self after_time
                                           max_days
    = Some (Some (SlotSuggester.next_slot
                    self after_time
                    (Py.add after_time (SlotSuggester.duration self)))).
Proof.
  intros db self fuel after max_days Hmax Hmin Hhours Hwd Hfree.
  unfold SlotSuggester.find_next_available_slot.
  cbn [SlotSuggester.search_loop].
  assert (Hlt : Py.ltb after (Py.add after (Py.days max_days)) = true).
  { unfold Py.ltb. rewrite utc_add. apply Z.ltb_lt.
    unfold Py.days. change Py.us_per_day with 86400000000. lia. }
  rewrite Hlt. cbv zeta.
  assert (Hm : (Py.minute after mod 30 =? 0) = true)
    by (apply Z.eqb_eq; exact Hmin).
  rewrite Hm. cbn [negb].
  assert (H1 : (Py.dt_time (Py.astimezone after (SlotSuggester.tz self))
                <? SlotSuggester.business_start self) = false)
    by (apply Z.ltb_ge; lia).
  assert (H2 : (SlotSuggester.business_end self
                <=? Py.dt_time (Py.astimezone after (SlotSuggester.tz self)))
               = false)
    by (apply Z.leb_gt; lia).
  rewrite H1, H2.
  assert (H3 : (5 <=? Py.weekday after) = false) by (apply Z.leb_gt; lia).
  rewrite H3.
  destruct (SlotSuggester._check_slot_for_all_users
              db self after (Py.add after (SlotSuggester.duration self)))
    as [ok un].
  cbn [fst] in Hfree. subst ok. reflexivity.
Qed.


(** ** More on the aggregator *)

Lemma participant_conflicts_fold db data user :
  participant_conflicts (check_meeting_conflicts db data user)
  = fold_left (record_participant db data)
              (get_default (md_participants data) []) [].
Proof. reflexivity. Qed.

Lemma User_objects_get_id db i p :
  User_objects_get db i = Some p -> User.id p = i /\ In p (User_objects db).
Proof.
  unfold User_objects_get. intro H. apply find_some in H.
  destruct H as [Hin Heq]. apply String.eqb_eq in Heq. now split.
Qed.

Lemma known_of_row db p :
  In p (User_objects db) -> known db (User.id p) = true.
Proof.
  intro Hin. unfold known, User_objects_get.
  destruct (find (fun u => String.eqb (User.id u) (User.id p))
                 (User_objects db)) eqn:Hfind; [reflexivity|].
  pose proof (find_none _ _ Hfind p Hin) as H. cbn in H.
  rewrite String.eqb_refl in H. discriminate.
Qed.

Lemma record_participants_known db data ids :
  forall acc,
    fold_left (record_participant db data) ids acc
    = fold_left (record_participant db data) (filter (known db) ids) acc.
Proof.
  induction ids as [|i ids IH]; intro acc; [reflexivity|].
  cbn [fold_left filter]. unfold known at 1.
  destruct (User_objects_get db i) as [p|] eqn:Hget.
  - cbn [fold_left]. apply IH.
  - rewrite <- IH. unfold record_participant at 2. rewrite Hget.
    reflexivity.
Qed.

Lemma filter_id_in_known db ids :
  User_objects_filter_id_in db ids
  = User_objects_filter_id_in db (filter (known db) ids).
Proof.
  unfold User_objects_filter_id_in. apply filter_ext_in.
  intros u Hu.
  destruct (existsb (String.eqb (User.id u)) ids) eqn:Hex.
  - symmetry. apply existsb_exists. apply existsb_exists in Hex.
    destruct Hex as [i [Hi Heq]]. exists i. split; [|exact Heq].
    apply filter_In. split; [exact Hi|].
    apply String.eqb_eq in Heq. subst i. apply known_of_row. exact Hu.
  - symmetry. apply not_true_is_false. intro H.
    apply existsb_exists in H. destruct H as [i [Hi Heq]].
    apply filter_In in Hi.
    assert (existsb (String.eqb (User.id u)) ids = true)
      by (apply existsb_exists; exists i; tauto).
    congruence.
Qed.

(** X17: participant ids that name no user are ignored, never an error:
    the whole report (organizer report, participant conflicts, verdict and
    suggested alternatives) is the one for the request with the unknown
    ids removed. *)
Theorem unknown_participants_are_ignored :
  forall (db : Snapshot) (data : meeting_data) (user : User.t)
         (ids : list uuid),
    check_meeting_conflicts db (with_participants data ids) user
    = check_meeting_conflicts
        db (with_participants data (filter (known db) ids)) user.
Proof.
  intros db data user ids.
  unfold check_meeting_conflicts.
  cbn [with_participants md_start_time md_end_time md_duration_minutes
       md_exclude_meeting_id md_participants get_default].
  change (fold_left _ ids [])
    with (fold_left (record_participant db (with_participants data ids))
                    ids []).
  change (fold_left _ (filter (known db) ids) [])
    with (fold_left (record_participant db (with_participants data ids))
                    (filter (known db) ids) []).
  rewrite <- record_participants_known, <- filter_id_in_known.
  reflexivity.
Qed.

Lemma dict_set_In {V : Type} (d : list (string * V)) (key : string) (v : V)
      (k : string) (e : V) :
  In (k, e) (dict_set d key v)
  <-> (k = key /\ e = v) \/ (k <> key /\ In (k, e) d).
Proof.
  unfold dict_set.
  destruct (existsb (fun kv => String.eqb (fst kv) key) d) eqn:Hex.
  - rewrite in_map_iff. split.
    + intros [[k0 e0] [Heq Hin]]. cbn [fst] in Heq.
      destruct (String.eqb k0 key) eqn:Hk.
      * injection Heq as <- <-. now left.
      * injection Heq as <- <-. apply String.eqb_neq in Hk. now right.
    + intros [[-> ->] | [Hne Hin]].
      * apply existsb_exists in Hex. destruct Hex as [[k0 e0] [Hin Hk]].
        exists (k0, e0). cbn [fst] in *. rewrite Hk. now split.
      * exists (k, e). cbn [fst]. apply String.eqb_neq in Hne.
        rewrite Hne. now split.
  - rewrite in_app_iff. cbn [In]. split.
    + intros [Hin | [Heq | []]].
      * right. split; [|exact Hin]. intros ->.
        assert (existsb (fun kv => String.eqb (fst kv) key) d = true).
        { apply existsb_exists. exists (key, e). split; [exact Hin|].
          apply String.eqb_refl. }
        congruence.
      * injection Heq as <- <-. now left.
    + intros [[-> ->] | [_ Hin]]; [right; now left | now left].
Qed.

Lemma record_participants_In db data ids :
  forall (acc : list (string * participant_entry)) (seen : string -> Prop),
    (forall k e, In (k, e) acc <-> seen k /\ conflicted_entry db data k e) ->
    forall k e,
      In (k, e) (fold_left (record_participant db data) ids acc)
      <-> (seen k \/ In k ids) /\ conflicted_entry db data k e.
Proof.
  induction ids as [|i ids IH]; intros acc seen Hacc k e.
  - cbn. rewrite Hacc. tauto.
  - cbn [fold_left].
    rewrite (IH _ (fun k => seen k \/ k = i)).
    + cbn [In]. intuition.
    + clear k e. intros k e. unfold record_participant.
      destruct (User_objects_get db i) as [p|] eqn:Hget.
      * destruct (User_objects_get_id _ _ _ Hget) as [Hid _].
        destruct (ConflictDetector.has_conflicts
                    (participant_report db data p)) eqn:Hc.
        -- rewrite dict_set_In, Hacc, Hid. split.
           ++ intros [[-> ->] | [Hne [Hs Hq]]].
              ** split; [now right|]. exists p. tauto.
              ** tauto.
           ++ intros [[Hs | ->] Hq].
              ** destruct (string_dec k i) as [-> | Hne].
                 --- left. split; [reflexivity|].
                     destruct Hq as [p' [Hget' [_ ->]]]. congruence.
                 --- right. tauto.
              ** left. split; [reflexivity|].
                 destruct Hq as [p' [Hget' [_ ->]]]. congruence.
        -- rewrite Hacc. split; [tauto|].
           intros [[Hs | ->] Hq]; [tauto|].
           destruct Hq as [p' [Hget' [Hc' _]]]. congruence.
      * rewrite Hacc. split; [tauto|].
        intros [[Hs | ->] Hq]; [tauto|].
        destruct Hq as [p' [Hget' _]]. congruence.
Qed.

Lemma participant_conflicts_In db data user k e :
  In (k, e) (participant_conflicts (check_meeting_conflicts db data user))
  <-> In k (get_default (md_participants data) [])
      /\ conflicted_entry db data k e.
Proof.
  rewrite participant_conflicts_fold.
  rewrite (record_participants_In db data _ [] (fun _ => False)).
  - tauto.
  - intros k' e'. cbn. tauto.
Qed.

Lemma dict_set_keys {V : Type} (d : list (string * V)) (key : string)
      (v : V) :
  map fst (dict_set d key v)
  = if existsb (fun kv => String.eqb (fst kv) key) d
    then map fst d else map fst d ++ [key].
Proof.
  unfold dict_set.
  destruct (existsb (fun kv => String.eqb (fst kv) key) d).
  - rewrite map_map. apply map_ext. intros [k0 e0]. cbn [fst].
    destruct (String.eqb k0 key) eqn:Hk; [|reflexivity].
    apply String.eqb_eq in Hk. now subst.
  - rewrite map_app. reflexivity.
Qed.

Lemma dict_set_NoDup {V : Type} (d : list (string * V)) (key : string)
      (v : V) :
  NoDup (map fst d) -> NoDup (map fst (dict_set d key v)).
Proof.
  intro Hd. rewrite dict_set_keys.
  destruct (existsb (fun kv => String.eqb (fst kv) key) d) eqn:Hex;
    [exact Hd|].
  apply NoDup_app; [exact Hd | repeat constructor; intros [] |].
  intros k Hk [Heq | []]. subst k.
  apply in_map_iff in Hk. destruct Hk as [[k0 e0] [Hfst Hin]].
  cbn [fst] in Hfst. subst k0.
  assert (existsb (fun kv => String.eqb (fst kv) key) d = true).
  { apply existsb_exists. exists (key, e0). split; [exact Hin|].
    apply String.eqb_refl. }
  congruence.
Qed.

Lemma record_participants_NoDup db data ids :
  forall acc,
    NoDup (map fst acc) ->
    NoDup (map fst (fold_left (record_participant db data) ids acc)).
Proof.
  induction ids as [|i ids IH]; intros acc Hacc; [exact Hacc|].
  cbn [fold_left]. apply IH. unfold record_participant.
  destruct (User_objects_get db i) as [p|]; [|exact Hacc].
  destruct (ConflictDetector.has_conflicts (participant_report db data p));
    [|exact Hacc].
  apply dict_set_NoDup. exact Hacc.
Qed.

(** X18: the participant conflicts list exactly the conflicted
    participants.  An id has an entry exactly when it is among the
    requested participant ids, names a user of the table and that user's
    report has conflicts; the entry carries the user's name and report;
    an id listed twice has one entry; and [has_any_conflicts] is true
    exactly when the organizer's report has conflicts or there is such an
    entry.  A participant who is only outside availability does not
    count. *)
Theorem participant_conflicts_list_the_conflicted :
  forall (db : Snapshot) (data : meeting_data) (user : User.t),
    let r := check_meeting_conflicts db data user in
    let ids := get_default (md_participants data) [] in
    (forall (k : string) (e : participant_entry),
        In (k, e) (participant_conflicts r)
        <-> In k ids /\ conflicted_entry db data k e)
    /\ NoDup (map fst (participant_conflicts r))
    /\ (has_any_conflicts r = true
        <-> ConflictDetector.has_conflicts (participant_report db data user)
            = true
            \/ exists k e, In k ids /\ conflicted_entry db data k e).
Proof.
  intros db data user r ids. split; [|split].
  - intros k e. apply participant_conflicts_In.
  - subst r. rewrite participant_conflicts_fold.
    apply record_participants_NoDup. constructor.
  - change (has_any_conflicts r)
      with (ConflictDetector.has_conflicts (participant_report db data user)
            || truthy_list (participant_conflicts r)).
    rewrite orb_true_iff, truthy_list_true.
    split; (intros [H | H]; [now left | right]).
    + destruct (participant_conflicts r) as [|[k e] l] eqn:Hl;
        [contradiction|].
      exists k, e. apply (participant_conflicts_In db data user).
      fold r. rewrite Hl. now left.
    + destruct H as [k [e H]].
      apply (participant_conflicts_In db data user) in H. fold r in H.
      intro Hnil. rewrite Hnil in H. exact H.
Qed.

Lemma alternatives_free_for_all db data user s :
  In s (suggested_alternatives (check_meeting_conflicts db data user)) ->
  free_for_all db (alternatives_suggester db data user) s.
Proof.
  intro Hin. unfold check_meeting_conflicts in Hin.
  cbn [suggested_alternatives] in Hin.
  match type of Hin with In _ (if ?c then _ else _) => destruct c end;
    [|destruct Hin].
  change (In s (SlotSuggester.suggest_slots
                  db (alternatives_suggester db data user)
                  (Py.dt_date (md_start_time data))
                  SlotSuggester.default_num_suggestions
                  SlotSuggester.default_days_to_search)) in Hin.
  apply suggest_slots_In in Hin.
  destruct Hin as [d [k [_ [_ [-> [Hok _]]]]]].
  intros u Hu. apply unavailable_false_free. cbn.
  eapply check_slot_true; eassumption.
Qed.

(** X19: every suggested alternative is free for the organizer and for
    every resolvable participant: each of them has no conflicting meeting
    or blocked time in the slot and is within availability there, judged
    in the organizer's timezone, which is the zone of the suggester. *)
Theorem alternatives_are_free_for_everyone :
  forall (db : Snapshot) (data : meeting_data) (user : User.t)
         (s : SlotSuggester.slot),
    In s (suggested_alternatives (check_meeting_conflicts db data user)) ->
    free_for db (alternatives_suggester db data user) s user
    /\ (forall p : User.t,
           In p (User_objects db) ->
           In (User.id p) (get_default (md_participants data) []) ->
           free_for db (alternatives_suggester db data user) s p).
Proof.
  intros db data user s Hin.
  pose proof (alternatives_free_for_all db data user s Hin) as Hall.
  split.
  - apply Hall. cbn. now left.
  - intros p Hrow Hid. apply Hall. cbn. right.
    unfold User_objects_filter_id_in. apply filter_In.
    split; [exact Hrow|].
    apply existsb_exists. exists (User.id p). split; [exact Hid|].
    apply String.eqb_refl.
Qed.


(** ** The serializers in front of the core *)

Lemma validate_location_ok a a' :
  Serializers.validate_location a = Serializers.Ok a' -> a' = a.
Proof.
  unfold Serializers.validate_location.
  repeat match goal with
         | |- context [if ?c then _ else _] => destruct c
         end; intro H; try discriminate; now injection H.
Qed.

(** What [MeetingSerializer.validate] returns when it returns: the
    attributes with the end time filled in. *)
Lemma MeetingSerializer_validate_ok has_instance now a a' :
  Serializers.MeetingSerializer_validate has_instance now a
  = Serializers.Ok a' ->
  match Serializers.start_time a with
  | Some s =>
      (has_instance = false -> Py.utc now < Py.utc s)
      /\ match Serializers.end_time a with
         | Some e => Py.utc s < Py.utc e /\ a' = a
         | None =>
             a' = Serializers.set_end_time
                    a (Py.add s (Py.minutes
                                   (get_default
                                      (Serializers.duration_minutes a) 30)))
         end
  | None => a' = a
  end.
Proof.
  unfold Serializers.MeetingSerializer_validate.
  destruct (Serializers.start_time a) as [s|].
  - destruct (negb has_instance && Py.leb s now) eqn:Hpast;
      [discriminate|].
    assert (Hfuture : has_instance = false -> Py.utc now < Py.utc s).
    { intros ->. cbn in Hpast. unfold Py.leb in Hpast.
      apply Z.leb_gt in Hpast. exact Hpast. }
    destruct (Serializers.end_time a) as [e|].
    + destruct (Py.leb e s) eqn:Hle; [discriminate|].
      intro H. apply validate_location_ok in H.
      unfold Py.leb in Hle. apply Z.leb_gt in Hle. tauto.
    + intro H. apply validate_location_ok in H. tauto.
  - destruct (Serializers.end_time a); intro H;
      apply validate_location_ok in H; exact H.
Qed.

(** X20: what passes [MeetingSerializer.validate] is a well-formed
    window.  For attributes with a start time and a positive duration,
    the validated attributes keep the start, carry an end time (the one
    given, or start plus duration when none was given) and the end is
    after the start; for a new meeting the start is after the current
    instant. *)
Theorem validated_meeting_window_is_well_formed :
  forall (has_instance : bool) (now : Py.datetime)
         (a a' : Serializers.attrs) (s : Py.datetime),
    Serializers.MeetingSerializer_validate has_instance now a
    = Serializers.Ok a' ->
    Serializers.start_time a = Some s ->
    0 < get_default (Serializers.duration_minutes a) 30 ->
    Serializers.start_time a' = Some s
    /\ (exists e,
           Serializers.end_time a' = Some e
           /\ Py.utc s < Py.utc e
           /\ e = match Serializers.end_time a with
                  | Some given => given
                  | None =>
                      Py.add s (Py.minutes
                                  (get_default
                                     (Serializers.duration_minutes a) 30))
                  end)
    /\ (has_instance = false -> Py.utc now < Py.utc s).
Proof.
  intros has_instance now a a' s Hok Hs Hdur.
  apply MeetingSerializer_validate_ok in Hok. rewrite Hs in Hok.
  destruct Hok as [Hfuture Hend].
  destruct (Serializers.end_time a) as [e|] eqn:He.
  - destruct Hend as [Hlt ->]. split; [exact Hs|]. split; [|exact Hfuture].
    exists e. rewrite He. tauto.
  - subst a'. cbn. split; [exact Hs|]. split; [|exact Hfuture].
    eexists. split; [reflexivity|]. split; [|reflexivity].
    rewrite utc_add. unfold Py.minutes.
    change Py.us_per_minute with 60000000. lia.
Qed.

Lemma no_conflicts_no_overlap db self s e :
  ConflictDetector.has_conflicts
    (ConflictDetector.get_all_conflicts db self s e None) = false ->
  (forall m, In m (Meeting_objects db) ->
             involves (ConflictDetector.user self) m -> live m ->
             ~ overlaps (Meeting.start_time m) (Meeting.end_time m) s e)
  /\ (forall b, In b (BlockedTime_objects db) ->
                BlockedTime.user b = User.id (ConflictDetector.user self) ->
                ~ overlaps (BlockedTime.start_datetime b)
                           (BlockedTime.end_datetime b) s e).
Proof.
  intro Hfree. split.
  - intros m Hrow Hpart Hlive Hover.
    assert (ConflictDetector.has_conflicts
              (ConflictDetector.get_all_conflicts db self s e None) = true).
    { apply has_conflicts_true. left. exists m.
      apply check_conflicts_In. unfold not_excluded. tauto. }
    congruence.
  - intros b Hrow Hown Hover.
    assert (ConflictDetector.has_conflicts
              (ConflictDetector.get_all_conflicts db self s e None) = true).
    { apply has_conflicts_true. right. exists b.
      apply check_blocked_times_In. tauto. }
    congruence.
Qed.

(** The flags, the participants and the duration pass through
    [MeetingSerializer.validate] unchanged. *)
Lemma MeetingSerializer_validate_keeps has_instance now a a' :
  Serializers.MeetingSerializer_validate has_instance now a
  = Serializers.Ok a' ->
  Serializers.check_conflicts a' = Serializers.check_conflicts a
  /\ Serializers.force_create a' = Serializers.force_create a
  /\ Serializers.participant_ids a' = Serializers.participant_ids a
  /\ Serializers.duration_minutes a' = Serializers.duration_minutes a.
Proof.
  intro H. apply MeetingSerializer_validate_ok in H.
  destruct (Serializers.start_time a) as [s|].
  - destruct H as [_ H]. destruct (Serializers.end_time a) as [e|].
    + destruct H as [_ ->]. tauto.
    + subst a'. cbn. tauto.
  - subst a'. tauto.
Qed.

Lemma MeetingSerializer_validate_raises has_instance now a err :
  Serializers.MeetingSerializer_validate has_instance now a
  = Serializers.Raise err ->
  exists field message, err = Serializers.ValidationError field message.
Proof.
  unfold Serializers.MeetingSerializer_validate,
    Serializers.validate_location.
  repeat match goal with
         | |- context [match ?c with _ => _ end] => destruct c
         end; intro H; try discriminate; injection H as <-; eauto.
Qed.

(** X21: a meeting that passes [MeetingCreateSerializer.validate] with
    the conflict check on and not forced collides with nothing.  The
    validated attributes carry a start and an end, and in that window
    neither the organizer nor any requested participant that names a user
    has a live meeting or a blocked time that overlaps. *)
Theorem accepted_meeting_collides_with_nothing :
  forall (db : Snapshot) (user : User.t) (has_instance : bool)
         (now : Py.datetime) (a a' : Serializers.attrs),
    Serializers.MeetingCreateSerializer_validate db user has_instance now a
    = Serializers.Ok a' ->
    get_default (Serializers.check_conflicts a) true = true ->
    get_default (Serializers.force_create a) false = false ->
    exists s e,
      Serializers.start_time a' = Some s
      /\ Serializers.end_time a' = Some e
      /\ forall p : User.t,
           p = user
           \/ (exists k,
                  In k (get_default (Serializers.participant_ids a) [])
                  /\ User_objects_get db k = Some p) ->
           (forall m, In m (Meeting_objects db) -> involves p m -> live m ->
                      ~ overlaps (Meeting.start_time m) (Meeting.end_time m)
                                 s e)
           /\ (forall b, In b (BlockedTime_objects db) ->
                         BlockedTime.user b = User.id p ->
                         ~ overlaps (BlockedTime.start_datetime b)
                                    (BlockedTime.end_datetime b) s e).
Proof.
  intros db user has_instance now a a' Hok Hcheck Hforce.
  unfold Serializers.MeetingCreateSerializer_validate in Hok.
  destruct (Serializers.MeetingSerializer_validate has_instance now a)
    as [a1|err] eqn:Hbase; [|discriminate].
  destruct (MeetingSerializer_validate_keeps _ _ _ _ Hbase)
    as [Hc [Hf [Hp Hd]]].
  cbv zeta in Hok. rewrite Hc, Hf, Hcheck, Hforce in Hok.
  cbn [andb negb Serializers.pop_flags Serializers.start_time
       Serializers.end_time] in Hok.
  destruct (Serializers.start_time a1) as [s|] eqn:Hs; [|discriminate].
  destruct (Serializers.end_time a1) as [e|] eqn:He; [|discriminate].
  match type of Hok with
  | (if has_any_conflicts ?r then _ else _) = _ =>
      destruct (has_any_conflicts r) eqn:Hany; [discriminate|]
  end.
  injection Hok as <-. exists s, e. cbn. split; [exact Hs|].
  split; [exact He|].
  set (data := Serializers.conflict_data (Serializers.pop_flags a1) s e)
    in Hany.
  change (has_any_conflicts (check_meeting_conflicts db data user))
    with (ConflictDetector.has_conflicts (participant_report db data user)
          || truthy_list
               (participant_conflicts
                  (check_meeting_conflicts db data user))) in Hany.
  apply orb_false_iff in Hany. destruct Hany as [Horg Hparts].
  intros p [-> | [k [Hk Hget]]].
  - apply (no_conflicts_no_overlap
             db (ConflictDetector.__init__ db user (User.timezone user))).
    exact Horg.
  - apply (no_conflicts_no_overlap
             db (ConflictDetector.__init__ db p (User.timezone p))).
    change (ConflictDetector.has_conflicts (participant_report db data p)
            = false).
    destruct (ConflictDetector.has_conflicts (participant_report db data p))
      eqn:Hc'; [|reflexivity].
    assert (Hin : In (k, participant_entry_of db data p)
                     (participant_conflicts
                        (check_meeting_conflicts db data user))).
    { apply participant_conflicts_In. split.
      - subst data. cbn. rewrite Hp. exact Hk.
      - exists p. tauto. }
    destruct (participant_conflicts (check_meeting_conflicts db data user));
      [destruct Hin | discriminate].
Qed.

(** X22: the conflicts error of [MeetingCreateSerializer.validate].  It
    is raised only with the conflict check on and not forced, when the
    aggregator finds a conflict for the validated window; it carries the
    aggregator's organizer report and participant conflicts and the first
    three of its suggested alternatives, so at most three suggestions,
    each of them free for the organizer and every resolvable
    participant. *)
Theorem conflicts_error_carries_the_first_three_alternatives :
  forall (db : Snapshot) (user : User.t) (has_instance : bool)
         (now : Py.datetime) (a : Serializers.attrs)
         (organizer : ConflictDetector.report)
         (participants : list (string * participant_entry))
         (suggestions : list SlotSuggester.slot),
    Serializers.MeetingCreateSerializer_validate db user has_instance now a
    = Serializers.Raise
        (Serializers.ConflictsError organizer participants suggestions) ->
    get_default (Serializers.check_conflicts a) true = true
    /\ get_default (Serializers.force_create a) false = false
    /\ (List.length suggestions <= 3)%nat
    /\ exists s e,
         let data := Serializers.conflict_data a s e in
         let r := check_meeting_conflicts db data user in
         Serializers.start_time a = Some s
         /\ has_any_conflicts r = true
         /\ organizer = organizer_conflicts r
         /\ participants = participant_conflicts r
         /\ suggestions = firstn 3 (suggested_alternatives r)
         /\ forall x, In x suggestions ->
                      free_for_all db (alternatives_suggester db data user) x.
Proof.
  intros db user has_instance now a org parts sugg Hraise.
  unfold Serializers.MeetingCreateSerializer_validate in Hraise.
  destruct (Serializers.MeetingSerializer_validate has_instance now a)
    as [a1|err] eqn:Hbase.
  2:{ injection Hraise as ->.
      apply MeetingSerializer_validate_raises in Hbase.
      destruct Hbase as [f [msg H]]. discriminate H. }
  destruct (MeetingSerializer_validate_keeps _ _ _ _ Hbase)
    as [Hc [Hf [Hp Hd]]].
  pose proof (MeetingSerializer_validate_ok _ _ _ _ Hbase) as Hshape.
  cbv zeta in Hraise. rewrite Hc, Hf in Hraise.
  destruct (get_default (Serializers.check_conflicts a) true);
    [|discriminate].
  destruct (get_default (Serializers.force_create a) false);
    [discriminate|].
  cbn [andb negb Serializers.pop_flags Serializers.start_time
       Serializers.end_time] in Hraise.
  destruct (Serializers.start_time a1) as [s|] eqn:Hs; [|discriminate].
  destruct (Serializers.end_time a1) as [e|] eqn:He; [|discriminate].
  assert (Hdata : Serializers.conflict_data (Serializers.pop_flags a1) s e
                  = Serializers.conflict_data a s e).
  { unfold Serializers.conflict_data. cbn. now rewrite Hp, Hd. }
  rewrite Hdata in Hraise.
  assert (Hstart : Serializers.start_time a = Some s).
  { destruct (Serializers.start_time a) as [s0|] eqn:Hsa.
    - destruct Hshape as [_ Hshape].
      destruct (Serializers.end_time a).
      + destruct Hshape as [_ ->]. congruence.
      + subst a1. cbn in Hs. congruence.
    - subst a1. congruence. }
  match type of Hraise with
  | (if has_any_conflicts ?r then _ else _) = _ =>
      destruct (has_any_conflicts r) eqn:Hany; [|discriminate]
  end.
  injection Hraise as <- <- <-.
  split; [reflexivity|]. split; [reflexivity|]. split.
  - unfold Py.slice_to. cbn [Z.leb Z.compare Z.to_nat Pos.to_nat
                              Pos.iter_op Nat.add].
    apply firstn_le_length.
  - exists s, e. cbv zeta. split; [exact Hstart|]. split; [exact Hany|].
    split; [reflexivity|]. split; [reflexivity|].
    split; [reflexivity|].
    intros x Hx. apply alternatives_free_for_all.
    eapply firstn_In. exact Hx.
Qed.

(** ** The meeting model *)

(** X23: at any instant a meeting whose end is not before its start is
    exactly one of upcoming, in progress and past. *)
Theorem meeting_is_upcoming_in_progress_or_past :
  forall (now : Py.datetime) (m : Meeting.t),
    Py.utc (Meeting.start_time m) <= Py.utc (Meeting.end_time m) ->
    (Meeting.is_upcoming now m = true
     /\ Meeting.is_in_progress now m = false
     /\ Meeting.is_past now m = false)
    \/ (Meeting.is_upcoming now m = false
        /\ Meeting.is_in_progress now m = true
        /\ Meeting.is_past now m = false)
    \/ (Meeting.is_upcoming now m = false
        /\ Meeting.is_in_progress now m = false
        /\ Meeting.is_past now m = true).
Proof.
  intros now m Hwf.
  unfold Meeting.is_upcoming, Meeting.is_in_progress, Meeting.is_past,
    Py.gtb, Py.ltb, Py.leb.
  destruct (Z.ltb_spec (Py.utc now) (Py.utc (Meeting.start_time m)));
    destruct (Z.ltb_spec (Py.utc (Meeting.end_time m)) (Py.utc now));
    destruct (Z.leb_spec (Py.utc (Meeting.start_time m)) (Py.utc now));
    destruct (Z.leb_spec (Py.utc now) (Py.utc (Meeting.end_time m)));
    cbn; try lia; tauto.
Qed.

(** X24: a blocked time that passes [BlockedTimeSerializer.validate] has
    its end after its start, and once stored it blocks its own window:
    every detector of its owner reports it, and a conflict, for that
    window. *)
Theorem accepted_blocked_time_blocks_its_window :
  forall (start_datetime end_datetime : Py.datetime)
         (validated : Py.datetime * Py.datetime),
    Serializers.BlockedTimeSerializer_validate start_datetime end_datetime
    = Serializers.Ok validated ->
    validated = (start_datetime, end_datetime)
    /\ Py.utc start_datetime < Py.utc end_datetime
    /\ forall (db : Snapshot) (self : ConflictDetector.t) (b : BlockedTime.t)
              (exclude_meeting_id : option uuid),
         In b (BlockedTime_objects db) ->
         BlockedTime.user b = User.id (ConflictDetector.user self) ->
         BlockedTime.start_datetime b = start_datetime ->
         BlockedTime.end_datetime b = end_datetime ->
         In b (ConflictDetector.check_blocked_times
                 db self start_datetime end_datetime)
         /\ ConflictDetector.has_conflicts
              (ConflictDetector.get_all_conflicts
                 db self start_datetime end_datetime exclude_meeting_id)
            = true.
Proof.
  intros s e validated Hok.
  unfold Serializers.BlockedTimeSerializer_validate in Hok.
  destruct (Py.leb e s) eqn:Hle; [discriminate|].
  injection Hok as <-. unfold Py.leb in Hle. apply Z.leb_gt in Hle.
  split; [reflexivity|]. split; [exact Hle|].
  intros db self b ex Hrow Hown Hs He.
  assert (Hin : In b (ConflictDetector.check_blocked_times db self s e)).
  { apply check_blocked_times_In. rewrite Hs, He. unfold overlaps. tauto. }
  split; [exact Hin|].
  apply has_conflicts_true. right. exists b. exact Hin.
Qed.


(** ** The message of an error response *)

Lemma first_field_message_skips str before :
  forall rest,
    (forall kv, In kv before -> Exceptions.field_message str (snd kv) = None)
    -> Exceptions.first_field_message str (before ++ rest)
       = Exceptions.first_field_message str rest.
Proof.
  induction before as [|[k v] before IH]; intros rest Hnone; [reflexivity|].
  cbn [app Exceptions.first_field_message].
  pose proof (Hnone (k, v) (or_introl eq_refl)) as Hv. cbn [snd] in Hv.
  rewrite IH by (intros kv Hin; apply Hnone; now right).
  destruct v as [s | [|first l] | d |]; try reflexivity; discriminate Hv.
Qed.

(** X25: which message [get_error_message] picks from a dictionary.  A
    [detail] entry wins over every field.  Without one, the first field
    (in the order of the dictionary) that holds a non-empty list or a text
    gives the message ["field: text"], the text being the first item of
    the list; fields that hold an empty list, a nested dictionary or
    anything else are passed over, and when every field is of that kind
    the message is the fixed ["An error occurred"]. *)
Theorem error_message_is_the_first_field_error :
  forall (str : Exceptions.value -> string)
         (items : list (string * Exceptions.value)),
    (forall detail,
        Exceptions.lookup "detail" items = Some detail ->
        Exceptions.get_error_message str (Exceptions.Dict items)
        = str detail)
    /\ (Exceptions.lookup "detail" items = None ->
        forall before key v after message,
          items = before ++ (key, v) :: after ->
          (forall kv, In kv before ->
                      Exceptions.field_message str (snd kv) = None) ->
          Exceptions.field_message str v = Some message ->
          Exceptions.get_error_message str (Exceptions.Dict items)
          = (key ++ ": " ++ message)%string)
    /\ (Exceptions.lookup "detail" items = None ->
        (forall kv, In kv items ->
                    Exceptions.field_message str (snd kv) = None) ->
        Exceptions.get_error_message str (Exceptions.Dict items)
        = "An error occurred"%string).
Proof.
  intros str items. split; [|split].
  - intros detail Hdetail. cbn. rewrite Hdetail. reflexivity.
  - intros Hnone before key v after message -> Hbefore Hv.
    cbn [Exceptions.get_error_message]. rewrite Hnone.
    rewrite (first_field_message_skips str before _ Hbefore).
    cbn [Exceptions.first_field_message].
    destruct v as [s | [|first l] | d |]; cbn in Hv; try discriminate;
      injection Hv as <-; reflexivity.
  - intros Hnone Hall. cbn [Exceptions.get_error_message]. rewrite Hnone.
    rewrite <- (app_nil_r items).
    rewrite (first_field_message_skips str items [] Hall). reflexivity.
Qed.

(** ** Instances of the properties above *)

Section Instances.

Import Scenario.

Lemma widening_keeps_conflicts_witness :
  let t1000 := at_zone nairobi 2024 6 3 10 0 0 in
  let t1015 := at_zone nairobi 2024 6 3 10 15 0 in
  let t1020 := at_zone nairobi 2024 6 3 10 20 0 in
  let t1100 := at_zone nairobi 2024 6 3 11 0 0 in
  Py.utc t1000 <= Py.utc t1015
  /\ Py.utc t1020 <= Py.utc t1100
  /\ ConflictDetector.has_conflicts
       (ConflictDetector.get_all_conflicts office alice_detector
                                           t1000 t1100 None) = true.
Proof.
  intros t1000 t1015 t1020 t1100.
  assert (Hs : Py.utc t1000 <= Py.utc t1015) by (vm_compute; discriminate).
  assert (He : Py.utc t1020 <= Py.utc t1100) by (vm_compute; discriminate).
  split; [exact Hs|]. split; [exact He|].
  apply (proj2 (proj2 (widening_keeps_conflicts
                         office alice_detector t1015 t1020 t1000 t1100
                         None Hs He))).
  reflexivity.
Defined.

Lemma meeting_conflicts_with_itself_unless_excluded_witness :
  In standup (Meeting_objects office)
  /\ In standup
        (ConflictDetector.check_conflicts
           office alice_detector (Meeting.start_time standup)
           (Meeting.end_time standup) None)
  /\ ~ In standup
         (ConflictDetector.check_conflicts
            office alice_detector (Meeting.start_time standup)
            (Meeting.end_time standup) (Some (Meeting.id standup))).
Proof.
  assert (Hrow : In standup (Meeting_objects office)) by (left; reflexivity).
  assert (Hpart : involves (ConflictDetector.user alice_detector) standup)
    by (left; reflexivity).
  assert (Hlive : live standup) by (split; [reflexivity | left; reflexivity]).
  assert (Hlen : Py.utc (Meeting.start_time standup)
                 < Py.utc (Meeting.end_time standup)) by reflexivity.
  assert (Hid : Meeting.id standup <> EmptyString) by discriminate.
  destruct (meeting_conflicts_with_itself_unless_excluded
              office alice_detector standup Hrow Hpart Hlive Hlen Hid)
    as [Hin [_ Hout]].
  split; [exact Hrow|]. split; [exact Hin | exact Hout].
Defined.

Lemma narrower_range_stays_within_availability_witness :
  ConflictDetector._is_time_within_availability
    office_with_night_shift night_detector 0 (Py.mk_time 0 0) (Py.mk_time 6 0)
  = true
  /\ ConflictDetector._is_time_within_availability
       office_with_night_shift night_detector 0 (Py.mk_time 1 0)
       (Py.mk_time 2 0) = true.
Proof.
  split; [reflexivity|].
  apply (narrower_range_stays_within_availability
           office_with_night_shift night_detector 0
           (Py.mk_time 0 0) (Py.mk_time 6 0));
    [reflexivity | vm_compute; discriminate | vm_compute; discriminate].
Defined.

Lemma declared_windows_replace_the_default_witness :
  In monday_night
     (ConflictDetector.live_availabilities office_with_night_shift
                                           night_detector 0)
  /\ ConflictDetector._is_time_within_availability
       office_with_night_shift night_detector 0 (Py.mk_time 0 0)
       (Py.mk_time 6 0) = true
  /\ ConflictDetector._is_time_within_availability
       office_with_night_shift night_detector 0 (Py.mk_time 9 0)
       (Py.mk_time 10 0) <> true.
Proof.
  assert (Hin : In monday_night
                   (ConflictDetector.live_availabilities
                      office_with_night_shift night_detector 0))
    by (left; reflexivity).
  assert (Hsome : ConflictDetector.live_availabilities
                    office_with_night_shift night_detector 0 <> [])
    by discriminate.
  split; [exact Hin|]. split.
  - exact (proj1 (declared_windows_replace_the_default
                    office_with_night_shift night_detector 0)
                 monday_night Hin).
  - intro H.
    apply (proj2 (declared_windows_replace_the_default
                    office_with_night_shift night_detector 0) Hsome) in H.
    destruct H as [a [[<- | []] [_ Hend]]]. vm_compute in Hend.
    apply Hend. reflexivity.
Defined.

Lemma dormant_windows_count_for_nothing_witness :
  let db := office_with_old_records in
  let alice := ConflictDetector.__init__ db alice "Africa/Nairobi" in
  In old_monday_morning (Availability_objects db)
  /\ dormant db old_monday_morning
  /\ ConflictDetector._is_time_within_availability
       db alice 0 (Py.mk_time 14 0) (Py.mk_time 15 0) = true.
Proof.
  intros db alice.
  assert (Hdormant : dormant db old_monday_morning) by (left; reflexivity).
  split; [left; reflexivity|]. split; [exact Hdormant|].
  apply (dormant_windows_count_for_nothing db alice 0).
  - intros a [<- | []] _ _. exact Hdormant.
  - split; vm_compute; discriminate.
Defined.

Lemma multi_day_window_needs_every_day_witness :
  let s := at_zone nairobi 2024 6 3 17 0 0 in
  let e := at_zone nairobi 2024 6 4 9 0 0 in
  let ls := Py.astimezone s (ConflictDetector.tz alice_detector) in
  let le := Py.astimezone e (ConflictDetector.tz alice_detector) in
  Py.dt_date ls < Py.dt_date le
  /\ (ConflictDetector.check_availability_window office alice_detector s e
      = true
      <-> forall d, Py.dt_date ls <= d <= Py.dt_date le ->
                    ConflictDetector._is_day_available
                      office alice_detector d ls le = true).
Proof.
  intros s e ls le.
  assert (Hspan : Py.dt_date ls < Py.dt_date le) by reflexivity.
  split; [exact Hspan|].
  exact (multi_day_window_needs_every_day office alice_detector s e Hspan).
Defined.

Lemma multi_day_window_fails_on_default_hours_witness :
  let s := at_zone nairobi 2024 6 3 17 0 0 in
  let e := at_zone nairobi 2024 6 4 9 0 0 in
  let ls := Py.astimezone s (ConflictDetector.tz alice_detector) in
  let le := Py.astimezone e (ConflictDetector.tz alice_detector) in
  Py.dt_date ls < Py.dt_date le
  /\ ConflictDetector.live_availabilities
       office alice_detector (Py.date_weekday (Py.dt_date ls)) = []
  /\ ConflictDetector.check_availability_window office alice_detector s e
     = false.
Proof.
  intros s e ls le.
  assert (Hspan : Py.dt_date ls < Py.dt_date le) by reflexivity.
  split; [exact Hspan|]. split; [reflexivity|].
  apply (multi_day_window_fails_on_default_hours
           office alice_detector s e (Py.dt_date ls) Hspan);
    [split; vm_compute; discriminate | reflexivity].
Defined.

Lemma suggestions_are_the_first_free_slots_witness :
  0 <= 5
  /\ SlotSuggester.suggest_slots office pair_suggester (Py.mk_date 2024 6 7)
                                 5 7
     = firstn 5
              (flat_map
                 (SlotSuggester._get_available_slots_for_day
                    office pair_suggester)
                 (scanned_weekdays (Py.mk_date 2024 6 7) 7)).
Proof.
  assert (H : 0 <= 5) by lia.
  split; [exact H|].
  exact (suggestions_are_the_first_free_slots
           office pair_suggester (Py.mk_date 2024 6 7) 5 7 H).
Defined.

Lemma suggestions_are_bounded_witness :
  0 <= 5
  /\ Z.of_nat (List.length
                 (SlotSuggester.suggest_slots
                    office pair_suggester (Py.mk_date 2024 6 3) 5 7)) <= 5
  /\ SlotSuggester.suggest_slots office pair_suggester (Py.mk_date 2024 6 3)
                                 5 (-1) = [].
Proof.
  assert (H : 0 <= 5) by lia.
  split; [exact H|]. split.
  - exact (proj1 (suggestions_are_bounded
                    office pair_suggester (Py.mk_date 2024 6 3) 5 7) H).
  - apply (proj2 (suggestions_are_bounded
                    office pair_suggester (Py.mk_date 2024 6 3) 5 (-1))).
    right. lia.
Defined.

Lemma nairobi_is_steady :
  steady_through_business_hours (pytz_timezone office "Africa/Nairobi").
Proof. intro d. reflexivity. Qed.

Lemma too_long_meetings_get_no_suggestion_witness :
  600 < 601
  /\ SlotSuggester.suggest_slots
       office
       (SlotSuggester.__init__ office [alice; bob] 601 "Africa/Nairobi")
       (Py.mk_date 2024 6 3) 5 7 = [].
Proof.
  assert (H : 600 < 601) by lia.
  split; [exact H|].
  exact (too_long_meetings_get_no_suggestion
           office [alice; bob] 601 "Africa/Nairobi" (Py.mk_date 2024 6 3)
           5 7 H nairobi_is_steady).
Defined.

Lemma day_offers_a_bounded_number_of_slots_witness :
  0 <= 30 <= 600
  /\ Z.of_nat (List.length
                 (SlotSuggester._get_available_slots_for_day
                    office pair_suggester (Py.mk_date 2024 6 3)))
     <= (600 - 30) / 30 + 1.
Proof.
  assert (H : 0 <= 30 <= 600) by lia.
  split; [exact H|].
  exact (proj1 (day_offers_a_bounded_number_of_slots
                  office [alice; bob] 30 "Africa/Nairobi"
                  (Py.mk_date 2024 6 3) H nairobi_is_steady)).
Defined.

Lemma next_slot_is_on_a_weekday_witness :
  let friday_evening := at_zone nairobi 2024 6 7 17 45 0 in
  let monday_morning := at_zone nairobi 2024 6 10 8 0 0 in
  let s := SlotSuggester.next_slot
             pair_suggester monday_morning
             (Py.add monday_morning (SlotSuggester.duration pair_suggester))
  in
  SlotSuggester.find_next_available_slot office 8 pair_suggester
                                         friday_evening 14 = Some (Some s)
  /\ 0 <= Py.weekday (SlotSuggester.start_time s) < 5.
Proof.
  intros friday_evening monday_morning s.
  assert (H : SlotSuggester.find_next_available_slot
                office 8 pair_suggester friday_evening 14 = Some (Some s))
    by (vm_compute; reflexivity).
  split; [exact H|].
  exact (proj1 (next_slot_is_on_a_weekday
                  office pair_suggester 8 friday_evening 14 s H)).
Defined.

Lemma empty_search_horizon_finds_nothing_witness :
  0 <= 0
  /\ SlotSuggester.find_next_available_slot
       office 1 pair_suggester (at_zone nairobi 2024 6 3 11 0 0) 0
     = Some None.
Proof.
  assert (H : 0 <= 0) by lia.
  split; [exact H|].
  exact (empty_search_horizon_finds_nothing
           office pair_suggester 0 (at_zone nairobi 2024 6 3 11 0 0) 0 H).
Defined.

Lemma free_instant_is_its_own_next_slot_witness :
  let t := at_zone nairobi 2024 6 3 11 0 15 in
  Py.minute t mod 30 = 0
  /\ Py.weekday t < 5
  /\ SlotSuggester.find_next_available_slot office 1 pair_suggester t 14
     = Some (Some (SlotSuggester.next_slot
                     pair_suggester t
                     (Py.add t (SlotSuggester.duration pair_suggester)))).
Proof.
  intro t.
  assert (Hm : Py.minute t mod 30 = 0) by reflexivity.
  assert (Hwd : Py.weekday t < 5) by reflexivity.
  split; [exact Hm|]. split; [exact Hwd|].
  apply (free_instant_is_its_own_next_slot office pair_suggester 0 t 14);
    [lia | exact Hm | split; [vm_compute; discriminate | reflexivity]
     | exact Hwd | reflexivity].
Defined.

Lemma alternatives_are_free_for_everyone_witness :
  let data := request 10 15 in
  let suggester := alternatives_suggester office data alice in
  let t0800 := at_zone nairobi 2024 6 3 8 0 0 in
  let s := SlotSuggester.day_slot
             suggester (Py.mk_date 2024 6 3) t0800
             (Py.add t0800 (SlotSuggester.duration suggester)) in
  In s (suggested_alternatives (check_meeting_conflicts office data alice))
  /\ free_for office suggester s alice
  /\ free_for office suggester s bob.
Proof.
  intros data suggester t0800 s.
  assert (Hin : In s (suggested_alternatives
                        (check_meeting_conflicts office data alice)))
    by (vm_compute; left; reflexivity).
  destruct (alternatives_are_free_for_everyone office data alice s Hin)
    as [Horg Hparts].
  split; [exact Hin|]. split; [exact Horg|].
  apply Hparts; [right; left; reflexivity | left; reflexivity].
Defined.

Lemma validated_meeting_window_is_well_formed_witness :
  let a := posted 10 15 in
  let s := at_zone nairobi 2024 6 3 10 15 0 in
  let a' := Serializers.set_end_time a (Py.add s (Py.minutes 30)) in
  Serializers.MeetingSerializer_validate false saturday_noon a
  = Serializers.Ok a'
  /\ exists e, Serializers.end_time a' = Some e /\ Py.utc s < Py.utc e.
Proof.
  intros a s a'.
  assert (Hok : Serializers.MeetingSerializer_validate false saturday_noon a
                = Serializers.Ok a') by reflexivity.
  split; [exact Hok|].
  destruct (validated_meeting_window_is_well_formed
              false saturday_noon a a' s Hok eq_refl eq_refl)
    as [_ [[e [He [Hlt _]]] _]].
  exists e. split; [exact He | exact Hlt].
Defined.

Lemma accepted_meeting_collides_with_nothing_witness :
  let a := posted 11 0 in
  exists a',
    Serializers.MeetingCreateSerializer_validate
      office alice false saturday_noon a = Serializers.Ok a'
    /\ exists s e,
         Serializers.start_time a' = Some s
         /\ Serializers.end_time a' = Some e
         /\ ~ overlaps (Meeting.start_time standup)
                       (Meeting.end_time standup) s e.
Proof.
  intro a. eexists. split; [vm_compute; reflexivity|].
  match goal with |- exists s e, Serializers.start_time ?a' = _ /\ _ =>
    destruct (accepted_meeting_collides_with_nothing
                office alice false saturday_noon a a')
      as [s [e [Hs [He Hfree]]]];
      [vm_compute; reflexivity | reflexivity | reflexivity |]
  end.
  exists s, e. split; [exact Hs|]. split; [exact He|].
  apply (proj1 (Hfree alice (or_introl eq_refl)));
    [left; reflexivity | left; reflexivity
     | split; [reflexivity | left; reflexivity]].
Defined.

Lemma conflicts_error_carries_the_first_three_alternatives_witness :
  let a := posted 10 15 in
  let s := at_zone nairobi 2024 6 3 10 15 0 in
  let r := check_meeting_conflicts
             office
             (Serializers.conflict_data a s (Py.add s (Py.minutes 30)))
             alice in
  Serializers.MeetingCreateSerializer_validate
    office alice false saturday_noon a
  = Serializers.Raise
      (Serializers.ConflictsError
         (organizer_conflicts r) (participant_conflicts r)
         (firstn 3 (suggested_alternatives r)))
  /\ (List.length (firstn 3 (suggested_alternatives r)) <= 3)%nat.
Proof.
  intros a s r.
  assert (Hraise : Serializers.MeetingCreateSerializer_validate
                     office alice false saturday_noon a
                   = Serializers.Raise
                       (Serializers.ConflictsError
                          (organizer_conflicts r) (participant_conflicts r)
                          (firstn 3 (suggested_alternatives r))))
    by (vm_compute; reflexivity).
  split; [exact Hraise|].
  exact (proj1 (proj2 (proj2
           (conflicts_error_carries_the_first_three_alternatives
              office alice false saturday_noon a _ _ _ Hraise)))).
Defined.

Lemma meeting_is_upcoming_in_progress_or_past_witness :
  Py.utc (Meeting.start_time standup) <= Py.utc (Meeting.end_time standup)
  /\ Meeting.is_upcoming saturday_noon standup = true.
Proof.
  assert (Hwf : Py.utc (Meeting.start_time standup)
                <= Py.utc (Meeting.end_time standup))
    by (vm_compute; discriminate).
  split; [exact Hwf|].
  destruct (meeting_is_upcoming_in_progress_or_past saturday_noon standup
                                                    Hwf)
    as [[H _] | [[H _] | [H _]]]; [exact H | discriminate H | discriminate H].
Defined.

Lemma accepted_blocked_time_blocks_its_window_witness :
  let s := BlockedTime.start_datetime leave in
  let e := BlockedTime.end_datetime leave in
  let bob := ConflictDetector.__init__ office bob "Africa/Nairobi" in
  Serializers.BlockedTimeSerializer_validate s e = Serializers.Ok (s, e)
  /\ ConflictDetector.has_conflicts
       (ConflictDetector.get_all_conflicts office bob s e None) = true.
Proof.
  intros s e bob.
  assert (Hok : Serializers.BlockedTimeSerializer_validate s e
                = Serializers.Ok (s, e)) by reflexivity.
  split; [exact Hok|].
  destruct (accepted_blocked_time_blocks_its_window s e (s, e) Hok)
    as [_ [_ Hblocks]].
  apply (Hblocks office bob leave None);
    [left; reflexivity | reflexivity | reflexivity | reflexivity].
Defined.

Lemma error_message_is_the_first_field_error_witness :
  let items :=
    [("start_time"%string, Exceptions.List []);
     ("conflicts"%string,
      Exceptions.Dict [("message"%string, Exceptions.Text "busy")]);
     ("end_time"%string,
      Exceptions.List [Exceptions.Text "End time must be after start time."])]
  in
  Exceptions.lookup "detail" items = None
  /\ Exceptions.get_error_message text_of (Exceptions.Dict items)
     = "end_time: End time must be after start time."%string.
Proof.
  intro items.
  assert (Hnone : Exceptions.lookup "detail" items = None) by reflexivity.
  split; [exact Hnone|].
  apply (proj1 (proj2 (error_message_is_the_first_field_error text_of items))
               Hnone
               [("start_time"%string, Exceptions.List []);
                ("conflicts"%string,
                 Exceptions.Dict [("message"%string, Exceptions.Text "busy")])]
               "end_time"%string
               (Exceptions.List
                  [Exceptions.Text "End time must be after start time."])
               []);
    [reflexivity | | reflexivity].
  intros kv [<- | [<- | []]]; reflexivity.
Defined.

Lemma next_slot_on_half_hour_from_a_whole_minute_witness :
  let after_time := at_zone nairobi 2024 6 3 10 40 0 in
  let t1100 := at_zone nairobi 2024 6 3 11 0 0 in
  let s := SlotSuggester.next_slot
             pair_suggester t1100
             (Py.add t1100 (SlotSuggester.duration pair_suggester)) in
  Py.time_below_minute (Py.dt_time after_time) = 0
  /\ SlotSuggester.find_next_available_slot office 4 pair_suggester
                                            after_time 14 = Some (Some s)
  /\ on_half_hour (SlotSuggester.start_time s).
Proof.
  intros after_time t1100 s.
  assert (Hzero : Py.time_below_minute (Py.dt_time after_time) = 0)
    by reflexivity.
  assert (Hfound : SlotSuggester.find_next_available_slot
                     office 4 pair_suggester after_time 14 = Some (Some s))
    by (vm_compute; reflexivity).
  split; [exact Hzero|]. split; [exact Hfound|].
  exact (next_slot_on_half_hour_from_a_whole_minute
           office [alice; bob] 30 "Africa/Nairobi" 4%nat after_time 14 s
           Hzero Hfound).
Defined.

End Instances.
